(** * GitOps tools: kubeconfig synchronisation, namespace status aggregation
      and the tree-node registry

    A shallow embedding of
    - [src/cli/kubernetes/kubernetesConfig.ts]
      ([syncKubeConfig], [kubeconfigChanged], [setCurrentContext],
      [currentContextExists]),
    - [src/ui/treeviews/nodes/namespaceNode.ts] ([NamespaceNode.updateLabel]),
    - the node registry ([nodeConstructors], [makeTreeNode]),
    - [src/types/kubernetes/kubernetesTypes.ts] ([qualifyToolkitKind]),
    - [src/views/treeViews.ts] ([createAllTreeViews] and the refresh
      functions),
    - [createKustomizationForPath].

    The module-level variables of the TypeScript code ([kubeConfigState],
    [kubeConfig]) live in a [World] record that is threaded through a small
    state monad; calls to collaborators outside of these files (kubectl,
    telemetry, the editor window, the tree views, the resource kind cache)
    are recorded in the world's [trace] in the order in which they happen. *)

From stdpp Require Import base option list strings gmap.
From Stdlib Require Import ZArith DecimalString.

Local Open Scope Z_scope.
Local Open Scope string_scope.
Local Open Scope list_scope.

(** ** Kubeconfig data ([k8s.KubeConfig]) *)

Record KubeContext := {
  ctx_name : string;
  ctx_cluster : string;
  ctx_user : option string;
  ctx_namespace : option string;
}.

Record Cluster := { cluster_name : string; cluster_server : string }.

Record User := { user_name : string }.

Record KubeConfig := {
  clusters : list Cluster;
  users : list User;
  contexts : list KubeContext;
  currentContext : option string;
}.

(** [new k8s.KubeConfig()] *)
Definition emptyKubeConfig : KubeConfig :=
  {| clusters := []; users := []; contexts := []; currentContext := None |}.

Definition getContexts (kc : KubeConfig) : list KubeContext := contexts kc.
Definition getCurrentContext (kc : KubeConfig) : option string := currentContext kc.

(** The text of a kubeconfig is represented by the document it denotes: the
    entries under [clusters], [users] and [contexts] and the value of
    [current-context]. A context entry of the document may lack any of its
    fields. Two texts are the same when they denote the same document. *)
Record RawContextEntry := {
  raw_name : option string;
  raw_cluster : option string;
  raw_user : option string;
  raw_namespace : option string;
}.

Record ConfigDoc := {
  doc_clusters : list Cluster;
  doc_users : list User;
  doc_contexts : list RawContextEntry;
  doc_current : option string;
}.

#[global] Instance KubeContext_eq_dec : EqDecision KubeContext.
Proof. solve_decision. Defined.
#[global] Instance Cluster_eq_dec : EqDecision Cluster.
Proof. solve_decision. Defined.
#[global] Instance User_eq_dec : EqDecision User.
Proof. solve_decision. Defined.
#[global] Instance KubeConfig_eq_dec : EqDecision KubeConfig.
Proof. solve_decision. Defined.
#[global] Instance RawContextEntry_eq_dec : EqDecision RawContextEntry.
Proof. solve_decision. Defined.
#[global] Instance ConfigDoc_eq_dec : EqDecision ConfigDoc.
Proof. solve_decision. Defined.

(** JavaScript truthiness of an optional string: [undefined] and the empty
    string are falsy. *)
Definition truthy (o : option string) : bool :=
  match o with
  | Some s => negb (String.eqb s "")
  | None => false
  end.

(** [x || undefined] on an optional string. *)
Definition orUndefined (o : option string) : option string :=
  if truthy o then o else None.

(** A context entry is structurally valid when it carries a name and a
    cluster. *)
Definition validContextEntry (e : RawContextEntry) : bool :=
  truthy (raw_name e) && truthy (raw_cluster e).

(** Modelled from the spec: the reader of one context entry under
    [ActionOnInvalid.FILTER] (the kubeconfig parser belongs to the Kubernetes
    client library, which is not part of src/). A structurally invalid entry
    is dropped ([None]); it does not fail the parse. *)
Definition contextIterator (e : RawContextEntry) : option KubeContext :=
  match raw_name e, raw_cluster e with
  | Some n, Some c =>
      if validContextEntry e then
        Some {| ctx_name := n; ctx_cluster := c;
                ctx_user := orUndefined (raw_user e);
                ctx_namespace := orUndefined (raw_namespace e) |}
      else None
  | _, _ => None
  end.

(** Modelled from the spec: [KubeConfig.loadFromString(text,
    {onInvalidEntry: ActionOnInvalid.FILTER})] of the Kubernetes client
    library (not part of src/): "parse into a new snapshot, filtering out
    structurally invalid entries rather than failing the whole parse". *)
Definition loadFromString (text : ConfigDoc) : KubeConfig :=
  {| clusters := doc_clusters text;
     users := doc_users text;
     contexts := omap contextIterator (doc_contexts text);
     currentContext := doc_current text |}.

Definition exportContext (c : KubeContext) : RawContextEntry :=
  {| raw_name := Some (ctx_name c);
     raw_cluster := Some (ctx_cluster c);
     raw_user := ctx_user c;
     raw_namespace := ctx_namespace c |}.

(** Modelled from the spec: [KubeConfig.exportConfig()] of the Kubernetes
    client library (not part of src/), the "raw text" of a snapshot. *)
Definition exportConfig (kc : KubeConfig) : ConfigDoc :=
  {| doc_clusters := clusters kc;
     doc_users := users kc;
     doc_contexts := exportContext <$> contexts kc;
     doc_current := currentContext kc |}.

(** ** The kubeconfig differ ([utils/kubeConfigCompare]) *)

(** Modelled from the spec: [kcTextChanged] of utils/kubeConfigCompare (not
    part of src/): "true iff raw serialized text differs byte-for-byte". *)
Definition kcTextChanged (kc1 kc2 : KubeConfig) : bool :=
  bool_decide (exportConfig kc1 ≠ exportConfig kc2).

Definition sameIdentity (c1 c2 : KubeContext) : bool :=
  bool_decide (ctx_name c1 = ctx_name c2)
  && bool_decide (ctx_cluster c1 = ctx_cluster c2)
  && bool_decide (ctx_user c1 = ctx_user c2).

Definition coveredBy (l1 l2 : list KubeContext) : bool :=
  forallb (λ c1, existsb (sameIdentity c1) l2) l1.

(** Modelled from the spec: [kcContextsListChanged] of
    utils/kubeConfigCompare (not part of src/): "true iff the set of context
    names differs (order-insensitive) OR any context's underlying identity
    (cluster/user) differs under the same name". *)
Definition kcContextsListChanged (kc1 kc2 : KubeConfig) : bool :=
  negb (coveredBy (getContexts kc1) (getContexts kc2)
        && coveredBy (getContexts kc2) (getContexts kc1)).

(** Modelled from the spec: [kcCurrentContextChanged] of
    utils/kubeConfigCompare (not part of src/): "true iff the selected
    context name differs between old and new". *)
Definition kcCurrentContextChanged (kc1 kc2 : KubeConfig) : bool :=
  bool_decide (getCurrentContext kc1 ≠ getCurrentContext kc2).

(** ** The world of the sync controller *)

Inductive KubeConfigState :=
  | Loading
  | Loaded
  | Failed
  | NoContextSelected.

#[global] Instance KubeConfigState_eq_dec : EqDecision KubeConfigState.
Proof. solve_decision. Defined.

(** Result of a shell command; [Out] is the representation of its standard
    output. *)
Record ShellResult (Out : Type) := {
  code : Z;
  stdout : Out;
  stderr : string;
}.
Arguments code {Out} _.
Arguments stdout {Out} _.
Arguments stderr {Out} _.

Inductive KubectlCommand :=
  | ConfigView
  | ConfigUseContext (contextName : string).

Inductive TelemetryError :=
  | FAILED_TO_GET_KUBECTL_CONFIG
  | FAILED_TO_SET_CURRENT_KUBERNETES_CONTEXT.

Inductive ContextId :=
  | CurrentClusterGitOpsNotEnabled
  | ClusterUnreachable.

#[global] Instance ContextId_eq_dec : EqDecision ContextId.
Proof. solve_decision. Defined.

(** Calls to collaborators that live outside of the embedded files. *)
Inductive Event :=
  | InvokeKubectlCommand (cmd : KubectlCommand)
  | TelemetrySendError (e : TelemetryError)
  | ShowErrorMessage (message : string)
  | LoadKubeConfigPath
  | SetVSCodeContext (id : ContextId) (value : bool)
  | ReloadClustersTreeView
  | LoadApiResources.

#[global] Instance KubectlCommand_eq_dec : EqDecision KubectlCommand.
Proof. solve_decision. Defined.
#[global] Instance TelemetryError_eq_dec : EqDecision TelemetryError.
Proof. solve_decision. Defined.
#[global] Instance Event_eq_dec : EqDecision Event.
Proof. solve_decision. Defined.

(** What the collaborators answer during one call of the controller: the
    results of the kubectl invocations ([None] is [undefined]), the path
    returned by [loadKubeConfigPath] and the rendering [shellCodeError] of a
    failed shell result (cli/shell/exec, not part of src/). *)
Record Env := {
  kubectlConfigView : option (ShellResult ConfigDoc);
  kubectlUseContext : string → option (ShellResult string);
  kubeConfigPath : string;
  shellCodeError : option (ShellResult ConfigDoc) → string;
}.

(** The module state of kubernetesConfig.ts, the editor's context keys, the
    trace of collaborator calls (oldest first) and the history of the values
    assigned to [kubeConfigState] (oldest first). *)
Record World := {
  kubeConfigState : KubeConfigState;
  kubeConfig : KubeConfig;
  vscodeContext : ContextId → bool;
  trace : list Event;
  stateLog : list KubeConfigState;
}.

(** At extension start. *)
Definition initialWorld : World :=
  {| kubeConfigState := Loading;
     kubeConfig := emptyKubeConfig;
     vscodeContext := λ _, false;
     trace := [];
     stateLog := [] |}.

(** ** A state monad over [World] *)

Definition M (A : Type) : Type := World → A * World.

Definition ret {A} (a : A) : M A := λ w, (a, w).

Definition bind {A B} (m : M A) (k : A → M B) : M B :=
  λ w, let '(a, w') := m w in k a w'.

Notation "x <- m ;; k" := (bind m (λ x, k))
  (at level 100, m at next level, right associativity).
Notation "m ;; k" := (bind m (λ _, k))
  (at level 100, right associativity).

Definition emit (e : Event) : M unit :=
  λ w, (tt, {| kubeConfigState := kubeConfigState w;
               kubeConfig := kubeConfig w;
               vscodeContext := vscodeContext w;
               trace := trace w ++ [e];
               stateLog := stateLog w |}).

(** [kubeConfigState = s] *)
Definition setKubeConfigState (s : KubeConfigState) : M unit :=
  λ w, (tt, {| kubeConfigState := s;
               kubeConfig := kubeConfig w;
               vscodeContext := vscodeContext w;
               trace := trace w;
               stateLog := stateLog w ++ [s] |}).

Definition getKubeConfig : M KubeConfig := λ w, (kubeConfig w, w).

(** [kubeConfig.loadFromString(text, {onInvalidEntry: ActionOnInvalid.FILTER})]
    on the module's [kubeConfig] object. *)
Definition kubeConfig_loadFromString (text : ConfigDoc) : M unit :=
  λ w, (tt, {| kubeConfigState := kubeConfigState w;
               kubeConfig := loadFromString text;
               vscodeContext := vscodeContext w;
               trace := trace w;
               stateLog := stateLog w |}).

(** [setVSCodeContext(id, value)] *)
Definition setVSCodeContext (id : ContextId) (value : bool) : M unit :=
  λ w, (tt, {| kubeConfigState := kubeConfigState w;
               kubeConfig := kubeConfig w;
               vscodeContext :=
                 λ k, if bool_decide (k = id) then value else vscodeContext w k;
               trace := trace w ++ [SetVSCodeContext id value];
               stateLog := stateLog w |}).

Definition invokeKubectlConfigView (env : Env)
  : M (option (ShellResult ConfigDoc)) :=
  emit (InvokeKubectlCommand ConfigView) ;; ret (kubectlConfigView env).

Definition invokeKubectlUseContext (env : Env) (contextName : string)
  : M (option (ShellResult string)) :=
  emit (InvokeKubectlCommand (ConfigUseContext contextName)) ;;
  ret (kubectlUseContext env contextName).

Definition telemetry_sendError (e : TelemetryError) : M unit :=
  emit (TelemetrySendError e).

Definition window_showErrorMessage (message : string) : M unit :=
  emit (ShowErrorMessage message).

Definition reloadClustersTreeView : M unit := emit ReloadClustersTreeView.

Definition loadApiResources : M unit := emit LoadApiResources.

Definition loadKubeConfigPath (env : Env) : M string :=
  emit LoadKubeConfigPath ;; ret (kubeConfigPath env).

(** ** kubernetesConfig.ts *)

(** [!!kc.getContexts().find(context => context.name === name)] with
    [name = kc.currentContext]: the current context of [kc] names one of its
    contexts. *)
Definition currentContextPresent (kc : KubeConfig) : bool :=
  let name := currentContext kc in
  bool_decide
    (is_Some (find (λ context, bool_decide (Some (ctx_name context) = name))
                (getContexts kc))).

(** [currentContextExists()] reads the module's [kubeConfig]. *)
Definition currentContextExists : M bool :=
  kc <- getKubeConfig ;;
  ret (currentContextPresent kc).

(** [kubeconfigChanged]: the two verdicts of the differ are taken against the
    committed kubeconfig before the new one is loaded into it. *)

Definition kubeconfigChanged (newKubeConfig : KubeConfig)
    (forceReloadResourceKinds : bool) : M unit :=
  old <- getKubeConfig ;;
  let contextsListChanged := kcContextsListChanged old newKubeConfig in
  let contextChanged := kcCurrentContextChanged old newKubeConfig in
  kubeConfig_loadFromString (exportConfig newKubeConfig) ;;
  exists_ <- currentContextExists ;;
  (if negb exists_ then setKubeConfigState NoContextSelected else ret tt) ;;
  (if contextChanged then
     setVSCodeContext CurrentClusterGitOpsNotEnabled false ;;
     setVSCodeContext ClusterUnreachable false
   else ret tt) ;;
  if contextChanged || forceReloadResourceKinds then
    reloadClustersTreeView ;;
    loadApiResources
  else if contextsListChanged then
    reloadClustersTreeView
  else ret tt.

(** [syncKubeConfig]: [failure] is the body of
    [if (configShellResult?.code !== 0)], taken when there is no result and
    when the exit code is not 0. *)
Definition syncKubeConfig (env : Env) (forceReloadResourceKinds : bool)
  : M unit :=
  setKubeConfigState Loading ;;
  configShellResult <- invokeKubectlConfigView env ;;
  let failure :=
    telemetry_sendError FAILED_TO_GET_KUBECTL_CONFIG ;;
    path <- loadKubeConfigPath env ;;
    window_showErrorMessage
      ("Failed to load kubeconfig: " +:+ path +:+ " "
       +:+ shellCodeError env configShellResult) ;;
    setKubeConfigState Failed in
  match configShellResult with
  | Some result =>
      if negb (code result =? 0)%Z then failure
      else
        let newKubeConfig := loadFromString (stdout result) in
        setKubeConfigState Loaded ;;
        old <- getKubeConfig ;;
        if kcTextChanged old newKubeConfig then
          kubeconfigChanged newKubeConfig forceReloadResourceKinds
        else if forceReloadResourceKinds then loadApiResources
        else ret tt
  | None => failure
  end.

Record SetContextResult := { isChanged : bool }.

(** [setCurrentContext]: [None] is the result [undefined]. *)
Definition setCurrentContext (env : Env) (contextName : string)
  : M (option SetContextResult) :=
  kc <- getKubeConfig ;;
  if bool_decide (getCurrentContext kc = Some contextName) then
    ret (Some {| isChanged := false |})
  else
    setContextShellResult <- invokeKubectlUseContext env contextName ;;
    if truthy (stderr <$> setContextShellResult) then
      telemetry_sendError FAILED_TO_SET_CURRENT_KUBERNETES_CONTEXT ;;
      window_showErrorMessage
        ("Failed to set kubectl context to " +:+ contextName +:+ ": "
         +:+ default "undefined" (stderr <$> setContextShellResult)) ;;
      ret None
    else
      ret (Some {| isChanged := true |}).

(** ** Tree nodes *)

(** The node classes of the tree views. *)
Inductive NodeClass :=
  | BucketNode
  | GitRepositoryNode
  | OCIRepositoryNode
  | HelmRepositoryNode
  | HelmReleaseNode
  | KustomizationNode
  | GitOpsTemplateNode
  | NamespaceNodeClass
  | AnyResourceNode.

#[global] Instance NodeClass_eq_dec : EqDecision NodeClass.
Proof. solve_decision. Defined.

(** [node instanceof SourceNode]: the source classes extend [SourceNode]. *)
Definition subclassOfSourceNode (c : NodeClass) : bool :=
  match c with
  | BucketNode | GitRepositoryNode | OCIRepositoryNode | HelmRepositoryNode => true
  | _ => false
  end.

(** [node instanceof WorkloadNode]: [KustomizationNode extends WorkloadNode],
    and so does [HelmReleaseNode]. *)
Definition subclassOfWorkloadNode (c : NodeClass) : bool :=
  match c with
  | HelmReleaseNode | KustomizationNode => true
  | _ => false
  end.

(** A child of a namespace node, as far as [updateLabel] looks at it: its
    class and, for sources and workloads, the values of the getters
    [resourceIsReady] and [resourceIsProgressing] (sourceNode.ts and
    workloadNode.ts are not part of src/, the getters' values are taken as
    data; on other classes the two fields are not read). *)
Record TreeNode := {
  nodeClass : NodeClass;
  resourceIsReady : bool;
  resourceIsProgressing : bool;
}.

Definition instanceofSourceNode (child : TreeNode) : bool :=
  subclassOfSourceNode (nodeClass child).

Definition instanceofWorkloadNode (child : TreeNode) : bool :=
  subclassOfWorkloadNode (nodeClass child).

Inductive TreeItemCollapsibleState :=
  | CollapsibleNone
  | Collapsed
  | Expanded.

#[global] Instance TreeItemCollapsibleState_eq_dec
  : EqDecision TreeItemCollapsibleState.
Proof. solve_decision. Defined.

Inductive TreeNodeIcon :=
  | Success
  | Progressing
  | Warning.

#[global] Instance TreeNodeIcon_eq_dec : EqDecision TreeNodeIcon.
Proof. solve_decision. Defined.

(** ** namespaceNode.ts *)

Record NamespaceNode := {
  (** [this.resource.metadata?.name] *)
  resourceName : option string;
  children : list TreeNode;
  collapsibleState : TreeItemCollapsibleState;
  label : string;
  icon : option TreeNodeIcon;
}.

(** A number inside a template literal. *)
Definition numberToString (n : nat) : string :=
  NilZero.string_of_uint (Nat.to_uint n).

(** An optional string inside a template literal. *)
Definition templateString (o : option string) : string :=
  default "undefined" o.

(** One round of the loop over [this.children]; the accumulator is
    [(readyLength, loadingLength)]. *)
Definition countChild (acc : nat * nat) (child : TreeNode) : nat * nat :=
  let '(readyLength, loadingLength) := acc in
  if instanceofSourceNode child || instanceofWorkloadNode child then
    if resourceIsReady child then (S readyLength, loadingLength)
    else if resourceIsProgressing child then (readyLength, S loadingLength)
    else (readyLength, loadingLength)
  else (S readyLength, loadingLength).

Definition countChildren (cs : list TreeNode) : nat * nat :=
  fold_left countChild cs (0%nat, 0%nat).

Definition readyLength (cs : list TreeNode) : nat := fst (countChildren cs).
Definition loadingLength (cs : list TreeNode) : nat := snd (countChildren cs).
Definition totalLength (cs : list TreeNode) : nat := length cs.
Definition validLength (cs : list TreeNode) : nat :=
  (readyLength cs + loadingLength cs)%nat.

(** The argument of [this.setIcon] in [updateLabel]. *)
Definition aggregateIcon (withIcons : bool) (cs : list TreeNode)
  : option TreeNodeIcon :=
  if withIcons then
    if bool_decide (readyLength cs = totalLength cs) then Some Success
    else if bool_decide (validLength cs = totalLength cs) then Some Progressing
    else Some Warning
  else None.

(** The value assigned to [this.label] in [updateLabel]. *)
Definition aggregateLabel (node : NamespaceNode) : string :=
  let cs := children node in
  if bool_decide (collapsibleState node = Collapsed) then
    let lengthLabel :=
      if bool_decide (totalLength cs = validLength cs)
      then numberToString (totalLength cs)
      else numberToString (validLength cs) +:+ "/"
           +:+ numberToString (totalLength cs) in
    templateString (resourceName node) +:+ " (" +:+ lengthLabel +:+ ")"
  else templateString (resourceName node).

Definition updateLabel (withIcons : bool) (node : NamespaceNode)
  : NamespaceNode :=
  {| resourceName := resourceName node;
     children := children node;
     collapsibleState := collapsibleState node;
     label := aggregateLabel node;
     icon := aggregateIcon withIcons (children node) |}.

(** ** The node registry *)

Record KubernetesObject := {
  kind : option string;
  metadata_name : option string;
}.

(** What a property read on [nodeConstructors] can yield: one of the node
    classes of the table or, through the prototype chain of the object
    literal, a member of [Object.prototype]. *)
Inductive PropertyValue :=
  | NodeConstructor (cls : NodeClass)
  | ObjectFunction
  | BuiltinMethod (name : string)
  | ObjectPrototype.

(** The own properties of the [nodeConstructors] object literal. *)
Definition nodeConstructors : gmap string NodeClass :=
  list_to_map [
    ("Bucket", BucketNode);
    ("GitRepository", GitRepositoryNode);
    ("OCIRepository", OCIRepositoryNode);
    ("HelmRepository", HelmRepositoryNode);
    ("HelmRelease", HelmReleaseNode);
    ("Kustomization", KustomizationNode);
    ("GitOpsTemplate", GitOpsTemplateNode);
    ("Namespace", NamespaceNodeClass);
    ("Deployment", AnyResourceNode);
    ("Node", AnyResourceNode);
    ("Pod", AnyResourceNode);
    ("ConfigMap", AnyResourceNode)
  ].

(** The properties every object literal inherits from [Object.prototype]:
    [constructor] is the function [Object], [__proto__] is an accessor that
    yields the prototype object, the others are built-in methods. *)
Definition objectPrototype : gmap string PropertyValue :=
  list_to_map [
    ("constructor", ObjectFunction);
    ("__proto__", ObjectPrototype);
    ("hasOwnProperty", BuiltinMethod "hasOwnProperty");
    ("isPrototypeOf", BuiltinMethod "isPrototypeOf");
    ("propertyIsEnumerable", BuiltinMethod "propertyIsEnumerable");
    ("toLocaleString", BuiltinMethod "toLocaleString");
    ("toString", BuiltinMethod "toString");
    ("valueOf", BuiltinMethod "valueOf");
    ("__defineGetter__", BuiltinMethod "__defineGetter__");
    ("__defineSetter__", BuiltinMethod "__defineSetter__");
    ("__lookupGetter__", BuiltinMethod "__lookupGetter__");
    ("__lookupSetter__", BuiltinMethod "__lookupSetter__")
  ].

(** [nodeConstructors[key]]: an own property first, then the prototype. *)
Definition nodeConstructors_get (key : string) : option PropertyValue :=
  match nodeConstructors !! key with
  | Some cls => Some (NodeConstructor cls)
  | None => objectPrototype !! key
  end.

Inductive JsError :=
  | TypeError (message : string).

(** Outcome of a call: a value, or an exception. *)
Inductive Completion (A : Type) :=
  | Return (a : A)
  | Throw (e : JsError).
Arguments Return {A} _.
Arguments Throw {A} _.

(** What [new constructor(object)] evaluates to: a tree node of one of the
    classes or, for [new Object(object)], the object itself. *)
Inductive Constructed :=
  | NewNode (cls : NodeClass) (object : KubernetesObject)
  | SameObject (object : KubernetesObject).

(** [new constructor(object as any)]. The constructors of the node classes
    are taken to build their node; the built-in methods of
    [Object.prototype] and the prototype object itself are not
    constructors. *)
Definition construct (constructor : PropertyValue) (object : KubernetesObject)
  : Completion Constructed :=
  match constructor with
  | NodeConstructor cls => Return (NewNode cls object)
  | ObjectFunction => Return (SameObject object)
  | BuiltinMethod _ | ObjectPrototype =>
      Throw (TypeError "constructor is not a constructor")
  end.

(** [makeTreeNode]; [Return None] is the result [undefined]. *)
Definition makeTreeNode (object : KubernetesObject)
  : Completion (option Constructed) :=
  if negb (truthy (kind object)) then Return None
  else
    let constructor := nodeConstructors_get (default "" (kind object)) in
    match constructor with
    | Some c =>
        match construct c object with
        | Return node => Return (Some node)
        | Throw e => Throw e
        end
    | None => Return None
    end.

(** The kinds of the [Kind] enumeration, the fixed supported table. *)
Definition supportedKinds : list string :=
  ["Bucket"; "GitRepository"; "OCIRepository"; "HelmRepository"; "HelmRelease";
   "Kustomization"; "GitOpsTemplate"; "Namespace"; "Deployment"; "Node"; "Pod";
   "ConfigMap"].

(** ** kubernetesTypes.ts *)

(** The own properties of the [fullKinds] object literal. *)
Definition fullKinds : gmap string string :=
  list_to_map [
    ("Bucket", "Buckets.source.toolkit.fluxcd.io");
    ("GitRepository", "GitRepositories.source.toolkit.fluxcd.io");
    ("OCIRepository", "OCIRepositories.source.toolkit.fluxcd.io");
    ("HelmRepository", "HelmRepositories.source.toolkit.fluxcd.io");
    ("HelmRelease", "HelmReleases.helm.toolkit.fluxcd.io");
    ("Kustomization", "Kustomizations.kustomize.toolkit.fluxcd.io");
    ("GitOpsTemplate", "GitOpsTemplates.templates.weave.works")
  ].

(** The keys of [fullKinds], in the order of the source. *)
Definition toolkitKinds : list string :=
  ["Bucket"; "GitRepository"; "OCIRepository"; "HelmRepository"; "HelmRelease";
   "Kustomization"; "GitOpsTemplate"].

(** What [qualifyToolkitKind] can return: a string or, read through the
    prototype chain of [fullKinds], a member of [Object.prototype]. *)
Inductive KindValue :=
  | KindString (s : string)
  | KindInherited (v : PropertyValue).

(** [fullKinds[key]]: an own property first, then the prototype. *)
Definition fullKinds_get (key : string) : option KindValue :=
  match fullKinds !! key with
  | Some qualified => Some (KindString qualified)
  | None => KindInherited <$> objectPrototype !! key
  end.

(** Truthiness of a [KindValue]: functions and objects are truthy, a string
    is truthy unless it is empty. *)
Definition kindValueTruthy (v : KindValue) : bool :=
  match v with
  | KindString s => truthy (Some s)
  | KindInherited _ => true
  end.

(** [qualifyToolkitKind]: [fullKinds[kind] || kind]. *)
Definition qualifyToolkitKind (kind : string) : KindValue :=
  match fullKinds_get kind with
  | Some v => if kindValueTruthy v then v else KindString kind
  | None => KindString kind
  end.

(** ** Programs that may throw *)

(** A program over a state [S]: it ends with a value or with an exception,
    and with the state it has reached by then. *)
Definition Prog (S A : Type) : Type := S → Completion A * S.

Definition pret {S A} (a : A) : Prog S A := λ s, (Return a, s).

Definition pthrow {S A} (e : JsError) : Prog S A := λ s, (Throw e, s).

Definition pbind {S A B} (m : Prog S A) (k : A → Prog S B) : Prog S B :=
  λ s, match m s with
       | (Return a, s') => k a s'
       | (Throw e, s') => (Throw e, s')
       end.

Notation "'let*' x ':=' m 'in' k" := (pbind m (λ x, k))
  (at level 10, x name, m at level 100, k at level 200).
Notation "'run' m 'then' k" := (pbind m (λ _, k))
  (at level 10, m at level 100, k at level 200).

(** ** treeViews.ts *)

Inductive Views :=
  | ClusterView
  | SourceView
  | DeploymentView
  | DocumentationView.

#[global] Instance Views_eq_dec : EqDecision Views.
Proof. solve_decision. Defined.

Inductive ProviderClass :=
  | ClusterTreeViewDataProvider
  | SourceTreeViewDataProvider
  | DeploymentTreeViewDataProvider
  | DocumentationTreeViewDataProvider.

#[global] Instance ProviderClass_eq_dec : EqDecision ProviderClass.
Proof. solve_decision. Defined.

(** A data provider object: its class and its identity. Every [new] makes
    an object with an identity of its own. *)
Record Provider := {
  providerClass : ProviderClass;
  providerObject : nat;
}.

#[global] Instance Provider_eq_dec : EqDecision Provider.
Proof. solve_decision. Defined.

(** The result of [window.createTreeView(view, {treeDataProvider,
    showCollapseAll})]. *)
Record TreeView := {
  view : Views;
  treeDataProvider : Provider;
  showCollapseAll : bool;
}.

#[global] Instance TreeView_eq_dec : EqDecision TreeView.
Proof. solve_decision. Defined.

Record ExtensionContext := { extensionPath : string }.

#[global] Instance ExtensionContext_eq_dec : EqDecision ExtensionContext.
Proof. solve_decision. Defined.

(** Calls that treeViews.ts makes to the provider classes and to the
    editor. *)
Inductive ViewEvent :=
  | NewProvider (provider : Provider) (context : option ExtensionContext)
  | CreateTreeView (treeView : TreeView)
  | ProviderRefresh (provider : Provider).

#[global] Instance ViewEvent_eq_dec : EqDecision ViewEvent.
Proof. solve_decision. Defined.

(** The module variables of treeViews.ts ([None] is [undefined], their value
    before [createAllTreeViews]), the number of objects made so far and the
    calls made so far (oldest first). *)
Record ViewsModule := {
  clusterTreeViewProvider : option Provider;
  sourceTreeViewProvider : option Provider;
  deploymentTreeViewProvider : option Provider;
  documentationTreeViewProvider : option Provider;
  clusterTreeView : option TreeView;
  sourceTreeView : option TreeView;
  deploymentTreeView : option TreeView;
  documentationTreeView : option TreeView;
  objectsMade : nat;
  viewCalls : list ViewEvent;
}.

(** The module when it is loaded. *)
Definition initialViewsModule : ViewsModule :=
  {| clusterTreeViewProvider := None; sourceTreeViewProvider := None;
     deploymentTreeViewProvider := None; documentationTreeViewProvider := None;
     clusterTreeView := None; sourceTreeView := None;
     deploymentTreeView := None; documentationTreeView := None;
     objectsMade := 0%nat; viewCalls := [] |}.

(** [new cls(context)]: a provider object that did not exist before. *)
Definition newProvider (cls : ProviderClass)
    (context : option ExtensionContext) : Prog ViewsModule Provider :=
  λ s,
    let provider := {| providerClass := cls; providerObject := objectsMade s |} in
    (Return provider,
     {| clusterTreeViewProvider := clusterTreeViewProvider s;
        sourceTreeViewProvider := sourceTreeViewProvider s;
        deploymentTreeViewProvider := deploymentTreeViewProvider s;
        documentationTreeViewProvider := documentationTreeViewProvider s;
        clusterTreeView := clusterTreeView s;
        sourceTreeView := sourceTreeView s;
        deploymentTreeView := deploymentTreeView s;
        documentationTreeView := documentationTreeView s;
        objectsMade := S (objectsMade s);
        viewCalls := viewCalls s ++ [NewProvider provider context] |}).

Definition viewEmit (e : ViewEvent) : Prog ViewsModule unit :=
  λ s,
    (Return tt,
     {| clusterTreeViewProvider := clusterTreeViewProvider s;
        sourceTreeViewProvider := sourceTreeViewProvider s;
        deploymentTreeViewProvider := deploymentTreeViewProvider s;
        documentationTreeViewProvider := documentationTreeViewProvider s;
        clusterTreeView := clusterTreeView s;
        sourceTreeView := sourceTreeView s;
        deploymentTreeView := deploymentTreeView s;
        documentationTreeView := documentationTreeView s;
        objectsMade := objectsMade s;
        viewCalls := viewCalls s ++ [e] |}).

(** [window.createTreeView(v, {treeDataProvider: provider,
    showCollapseAll: true})] *)
Definition window_createTreeView (v : Views) (provider : Provider)
  : Prog ViewsModule TreeView :=
  let treeView :=
    {| view := v; treeDataProvider := provider; showCollapseAll := true |} in
  run viewEmit (CreateTreeView treeView) then pret treeView.

(** Assignment to the four provider variables. *)
Definition setProviders (cluster source deployment documentation : Provider)
  : Prog ViewsModule unit :=
  λ s,
    (Return tt,
     {| clusterTreeViewProvider := Some cluster;
        sourceTreeViewProvider := Some source;
        deploymentTreeViewProvider := Some deployment;
        documentationTreeViewProvider := Some documentation;
        clusterTreeView := clusterTreeView s;
        sourceTreeView := sourceTreeView s;
        deploymentTreeView := deploymentTreeView s;
        documentationTreeView := documentationTreeView s;
        objectsMade := objectsMade s;
        viewCalls := viewCalls s |}).

(** Assignment to the four tree view variables. *)
Definition setTreeViews (cluster source deployment documentation : TreeView)
  : Prog ViewsModule unit :=
  λ s,
    (Return tt,
     {| clusterTreeViewProvider := clusterTreeViewProvider s;
        sourceTreeViewProvider := sourceTreeViewProvider s;
        deploymentTreeViewProvider := deploymentTreeViewProvider s;
        documentationTreeViewProvider := documentationTreeViewProvider s;
        clusterTreeView := Some cluster;
        sourceTreeView := Some source;
        deploymentTreeView := Some deployment;
        documentationTreeView := Some documentation;
        objectsMade := objectsMade s;
        viewCalls := viewCalls s |}).

(** [createAllTreeViews]: the four providers are made and stored first, then
    the four tree views, each with the provider stored for it. *)
Definition createAllTreeViews (extensionContext : ExtensionContext)
  : Prog ViewsModule unit :=
  let* cluster :=
    newProvider ClusterTreeViewDataProvider (Some extensionContext) in
  let* source :=
    newProvider SourceTreeViewDataProvider (Some extensionContext) in
  let* deployment :=
    newProvider DeploymentTreeViewDataProvider (Some extensionContext) in
  let* documentation := newProvider DocumentationTreeViewDataProvider None in
  run setProviders cluster source deployment documentation then
  let* clusterView := window_createTreeView ClusterView cluster in
  let* sourceView := window_createTreeView SourceView source in
  let* deploymentView := window_createTreeView DeploymentView deployment in
  let* documentationView :=
    window_createTreeView DocumentationView documentation in
  setTreeViews clusterView sourceView deploymentView documentationView.

(** [provider.refresh()] on the value of a provider variable: reading
    [refresh] from [undefined] throws. *)
Definition provider_refresh (provider : option Provider)
  : Prog ViewsModule unit :=
  match provider with
  | Some p => viewEmit (ProviderRefresh p)
  | None =>
      pthrow (TypeError
                "Cannot read properties of undefined (reading 'refresh')")
  end.

Definition refreshClusterTreeView : Prog ViewsModule unit :=
  λ s, provider_refresh (clusterTreeViewProvider s) s.

Definition refreshSourceTreeView : Prog ViewsModule unit :=
  λ s, provider_refresh (sourceTreeViewProvider s) s.

Definition refreshDeploymentTreeView : Prog ViewsModule unit :=
  λ s, provider_refresh (deploymentTreeViewProvider s) s.

Definition refreshAllTreeViews : Prog ViewsModule unit :=
  run refreshClusterTreeView then
  run refreshSourceTreeView then
  refreshDeploymentTreeView.

(** The calls that [m] makes when started in [s]. *)
Definition viewCallsOf {A} (m : Prog ViewsModule A) (s : ViewsModule)
  : list ViewEvent :=
  drop (length (viewCalls s)) (viewCalls (snd (m s))).

(** The provider with which the tree view [v] was last created. *)
Definition registeredProvider (evs : list ViewEvent) (v : Views)
  : option Provider :=
  last (omap (λ e, match e with
                   | CreateTreeView tv =>
                       if bool_decide (view tv = v)
                       then Some (treeDataProvider tv) else None
                   | _ => None
                   end) evs).

(** The provider object that the [n]-th [new] of a run makes when [made]
    objects exist already. *)
Definition providerMade (cls : ProviderClass) (made n : nat) : Provider :=
  {| providerClass := cls; providerObject := (n + made)%nat |}.

(** The calls of [createAllTreeViews extensionContext] when [made] objects
    exist already. *)
Definition createCalls (extensionContext : ExtensionContext) (made : nat)
  : list ViewEvent :=
  let cluster := providerMade ClusterTreeViewDataProvider made 0 in
  let source := providerMade SourceTreeViewDataProvider made 1 in
  let deployment := providerMade DeploymentTreeViewDataProvider made 2 in
  let documentation := providerMade DocumentationTreeViewDataProvider made 3 in
  let viewOf v provider :=
    {| view := v; treeDataProvider := provider; showCollapseAll := true |} in
  [NewProvider cluster (Some extensionContext);
   NewProvider source (Some extensionContext);
   NewProvider deployment (Some extensionContext);
   NewProvider documentation None;
   CreateTreeView (viewOf ClusterView cluster);
   CreateTreeView (viewOf SourceView source);
   CreateTreeView (viewOf DeploymentView deployment);
   CreateTreeView (viewOf DocumentationView documentation)].

(** The module after [createAllTreeViews extensionContext], started in [s]. *)
Definition viewsCreated (extensionContext : ExtensionContext)
    (s : ViewsModule) : ViewsModule :=
  let made := objectsMade s in
  let cluster := providerMade ClusterTreeViewDataProvider made 0 in
  let source := providerMade SourceTreeViewDataProvider made 1 in
  let deployment := providerMade DeploymentTreeViewDataProvider made 2 in
  let documentation := providerMade DocumentationTreeViewDataProvider made 3 in
  let viewOf v provider :=
    {| view := v; treeDataProvider := provider; showCollapseAll := true |} in
  {| clusterTreeViewProvider := Some cluster;
     sourceTreeViewProvider := Some source;
     deploymentTreeViewProvider := Some deployment;
     documentationTreeViewProvider := Some documentation;
     clusterTreeView := Some (viewOf ClusterView cluster);
     sourceTreeView := Some (viewOf SourceView source);
     deploymentTreeView := Some (viewOf DeploymentView deployment);
     documentationTreeView := Some (viewOf DocumentationView documentation);
     objectsMade := (4 + made)%nat;
     viewCalls := viewCalls s ++ createCalls extensionContext made |}.

(** ** createKustomizationForPath *)

Record Uri := { fsPath : string }.

Record WorkspaceFolder := { uri : Uri }.

(** What [getFolderGitInfo] found out about a folder. *)
Record GitInfo := { gitInfo_url : string }.

(** A [GitRepository] source of the cluster. *)
Record GitRepository := { gr_name : string; gr_namespace : string }.

#[global] Instance Uri_eq_dec : EqDecision Uri.
Proof. solve_decision. Defined.
#[global] Instance WorkspaceFolder_eq_dec : EqDecision WorkspaceFolder.
Proof. solve_decision. Defined.
#[global] Instance GitInfo_eq_dec : EqDecision GitInfo.
Proof. solve_decision. Defined.
#[global] Instance GitRepository_eq_dec : EqDecision GitRepository.
Proof. solve_decision. Defined.

(** What the collaborators of [createKustomizationForPath] answer: whether
    [getCurrentClusterInfo] failed, what the folder dialog returned ([None]
    when it was dismissed), [workspace.workspaceFolders], the functions
    [path.relative] and [path.isAbsolute], and the answers of
    [getFolderGitInfo], [getGitRepositoryforGitInfo] and
    [namespacedFluxObject]. *)
Record KustomizationEnv := {
  currentClusterInfoFailed : bool;
  showOpenDialogAnswer : option (list Uri);
  workspaceFolders : option (list WorkspaceFolder);
  path_relative : string → string → string;
  path_isAbsolute : string → bool;
  folderGitInfo : string → option GitInfo;
  gitRepositoryforGitInfo : option GitInfo → option GitRepository;
  namespacedFluxObject : option GitRepository → option string;
}.

(** The calls of [createKustomizationForPath] to its collaborators. *)
Inductive KustomizationEvent :=
  | GetCurrentClusterInfo
  | ShowOpenDialog (defaultUri : option Uri)
  | GetFolderGitInfo (folder : string)
  | GetGitRepositoryforGitInfo (gitInfo : option GitInfo)
  | OpenConfigureGitOpsWebview (selectSource : bool) (sourceName : string)
      (kustomizationPath : string) (createWorkload : bool)
      (gitInfo : option GitInfo).

#[global] Instance KustomizationEvent_eq_dec : EqDecision KustomizationEvent.
Proof. solve_decision. Defined.

Definition kustomizationEmit (e : KustomizationEvent)
  : Prog (list KustomizationEvent) unit :=
  λ evs, (Return tt, evs ++ [e]).

(** The test of the loop over the workspace folders:
    [relativePath && !relativePath.startsWith('..')
     && !path.isAbsolute(relativePath)]. *)
Definition insideFolder (env : KustomizationEnv) (relativePath : string)
  : bool :=
  truthy (Some relativePath)
  && negb (String.prefix ".." relativePath)
  && negb (path_isAbsolute env relativePath).

(** The loop over the workspace folders: the relative path from the first
    folder that passes the test, or the initial [''] when none does. *)
Fixpoint relativeKustomizationPath (env : KustomizationEnv)
    (folders : list WorkspaceFolder) (kustomizationFsPath : string) : string :=
  match folders with
  | [] => ""
  | folder :: rest =>
      let relativePath :=
        path_relative env (fsPath (uri folder)) kustomizationFsPath in
      if insideFolder env relativePath then relativePath
      else relativeKustomizationPath env rest kustomizationFsPath
  end.

(** [workspace.workspaceFolders?.[0].uri] *)
Definition defaultUri (env : KustomizationEnv)
  : Prog (list KustomizationEvent) (option Uri) :=
  match workspaceFolders env with
  | None => pret None
  | Some [] =>
      pthrow (TypeError "Cannot read properties of undefined (reading 'uri')")
  | Some (folder :: _) => pret (Some (uri folder))
  end.

(** The choice of the folder: the path of [fileExplorerUri] when it is given,
    else the first folder picked in the dialog; [None] when the dialog was
    dismissed and the function returns. *)
Definition chooseFolder (env : KustomizationEnv) (fileExplorerUri : option Uri)
  : Prog (list KustomizationEvent) (option string) :=
  match fileExplorerUri with
  | Some explorerUri => pret (Some (fsPath explorerUri))
  | None =>
      let* dialogUri := defaultUri env in
      run kustomizationEmit (ShowOpenDialog dialogUri) then
      match showOpenDialogAnswer env with
      | None => pret None
      | Some [] =>
          pthrow (TypeError
                    "Cannot read properties of undefined (reading 'fsPath')")
      | Some (picked :: _) => pret (Some (fsPath picked))
      end
  end.

Definition createKustomizationForPath (env : KustomizationEnv)
    (fileExplorerUri : option Uri) : Prog (list KustomizationEvent) unit :=
  run kustomizationEmit GetCurrentClusterInfo then
  if currentClusterInfoFailed env then pret tt
  else
    let* chosen := chooseFolder env fileExplorerUri in
    match chosen with
    | None => pret tt
    | Some kustomizationFsPath =>
        let relativePath :=
          relativeKustomizationPath env (default [] (workspaceFolders env))
            kustomizationFsPath in
        run kustomizationEmit (GetFolderGitInfo kustomizationFsPath) then
        let gitInfo := folderGitInfo env kustomizationFsPath in
        run kustomizationEmit (GetGitRepositoryforGitInfo gitInfo) then
        let gr := gitRepositoryforGitInfo env gitInfo in
        let selectSource := bool_decide (is_Some gr) in
        let sourceName :=
          default "" (orUndefined (namespacedFluxObject env gr)) in
        kustomizationEmit
          (OpenConfigureGitOpsWebview selectSource sourceName relativePath
             true gitInfo)
    end.

(** The webviews that a list of calls opens. *)
Definition webviewsOpened (evs : list KustomizationEvent)
  : list KustomizationEvent :=
  List.filter (λ e, match e with
                    | OpenConfigureGitOpsWebview _ _ _ _ _ => true
                    | _ => false
                    end) evs.

(** The folder dialogs that a list of calls shows. *)
Definition dialogsShown (evs : list KustomizationEvent)
  : list KustomizationEvent :=
  List.filter (λ e, match e with
                    | ShowOpenDialog _ => true
                    | _ => false
                    end) evs.

(** The calls of [createKustomizationForPath], in order. *)
Definition kustomizationCalls (env : KustomizationEnv)
    (fileExplorerUri : option Uri) : list KustomizationEvent :=
  snd (createKustomizationForPath env fileExplorerUri []).

(** The folder that [createKustomizationForPath] works on, if any. *)
Definition chosenFolder (env : KustomizationEnv) (fileExplorerUri : option Uri)
  : option string :=
  match fileExplorerUri with
  | Some explorerUri => Some (fsPath explorerUri)
  | None =>
      match showOpenDialogAnswer env with
      | Some (picked :: _) => Some (fsPath picked)
      | _ => None
      end
  end.

(** ** Observations on a run *)

(** The world in which [m], started in [w], ends. *)
Definition exec {A} (m : M A) (w : World) : World := snd (m w).

(** The collaborator calls that [m] makes when started in [w]. *)
Definition calls {A} (m : M A) (w : World) : list Event :=
  drop (length (trace w)) (trace (exec m w)).

(** The values that [m] assigns to [kubeConfigState] when started in [w]. *)
Definition stateChanges {A} (m : M A) (w : World) : list KubeConfigState :=
  drop (length (stateLog w)) (stateLog (exec m w)).

Definition isReload (e : Event) : bool :=
  match e with
  | ReloadClustersTreeView | LoadApiResources => true
  | _ => false
  end.

(** The reloads among a list of collaborator calls, in order. *)
Definition reloads (evs : list Event) : list Event := List.filter isReload evs.

(** The kubectl invocation fails: no result, or a non-zero exit code. *)
Definition cliFailed (r : option (ShellResult ConfigDoc)) : Prop :=
  match r with
  | Some result => code result ≠ 0
  | None => True
  end.

(** The kubectl invocation returns [result] with exit code 0. *)
Definition cliSucceeded (env : Env) (result : ShellResult ConfigDoc) : Prop :=
  kubectlConfigView env = Some result ∧ code result = 0.

(** The calls by which [kubeconfigChanged] clears the two cluster flags. *)
Definition clearFlagCalls (contextChanged : bool) : list Event :=
  if contextChanged then
    [SetVSCodeContext CurrentClusterGitOpsNotEnabled false;
     SetVSCodeContext ClusterUnreachable false]
  else [].

(** The editor's context keys after [kubeconfigChanged] has cleared the two
    cluster flags. *)
Definition clearFlags (keys : ContextId → bool) : ContextId → bool :=
  λ k, if bool_decide (k = ClusterUnreachable) then false
       else if bool_decide (k = CurrentClusterGitOpsNotEnabled) then false
       else keys k.

(** The reloads at the end of [kubeconfigChanged]. *)
Definition dispatchCalls (contextChanged forceReloadResourceKinds
    contextsListChanged : bool) : list Event :=
  if contextChanged || forceReloadResourceKinds then
    [ReloadClustersTreeView; LoadApiResources]
  else if contextsListChanged then [ReloadClustersTreeView]
  else [].

(** ** Counting children *)

(** A child with a readiness concept: a source or a workload. *)
Definition tracked (child : TreeNode) : bool :=
  instanceofSourceNode child || instanceofWorkloadNode child.

(** The number of children that satisfy [p]. *)
Definition countIf (p : TreeNode → bool) (cs : list TreeNode) : nat :=
  length (List.filter p cs).

Definition readyTracked (cs : list TreeNode) : nat :=
  countIf (λ c, tracked c && resourceIsReady c) cs.

Definition untrackedCount (cs : list TreeNode) : nat :=
  countIf (λ c, negb (tracked c)) cs.

Definition progressingTracked (cs : list TreeNode) : nat :=
  countIf (λ c, tracked c && resourceIsProgressing c) cs.

(** Progressing children that the loop reaches in its [else if]. *)
Definition progressingNotReady (cs : list TreeNode) : nat :=
  countIf (λ c, tracked c && negb (resourceIsReady c)
                && resourceIsProgressing c) cs.

(** Sources and workloads that are neither ready nor progressing. *)
Definition errorCount (cs : list TreeNode) : nat :=
  countIf (λ c, tracked c && negb (resourceIsReady c)
                && negb (resourceIsProgressing c)) cs.

(** The readiness flags of a source or workload exclude each other. *)
Definition flagsExclusive (child : TreeNode) : Prop :=
  tracked child = true →
  ¬ (resourceIsReady child = true ∧ resourceIsProgressing child = true).

(** The child is a source or workload that is neither ready nor
    progressing. *)
Definition failedChild (c : TreeNode) : Prop :=
  tracked c = true ∧ resourceIsReady c = false
  ∧ resourceIsProgressing c = false.

(** The child is a source or workload that is not ready and progressing. *)
Definition pendingChild (c : TreeNode) : Prop :=
  tracked c = true ∧ resourceIsReady c = false
  ∧ resourceIsProgressing c = true.

(** ** Example data *)

Definition entryA : RawContextEntry :=
  {| raw_name := Some "a"; raw_cluster := Some "cluster-a";
     raw_user := Some "admin"; raw_namespace := None |}.

Definition entryB : RawContextEntry :=
  {| raw_name := Some "b"; raw_cluster := Some "cluster-b";
     raw_user := Some "admin"; raw_namespace := Some "flux-system" |}.

(** A context entry without a cluster. *)
Definition entryNoCluster : RawContextEntry :=
  {| raw_name := Some "c"; raw_cluster := None;
     raw_user := Some "admin"; raw_namespace := None |}.

Definition docOf (entries : list RawContextEntry) (current : option string)
  : ConfigDoc :=
  {| doc_clusters :=
       [{| cluster_name := "cluster-a"; cluster_server := "https://a:6443" |};
        {| cluster_name := "cluster-b"; cluster_server := "https://b:6443" |}];
     doc_users := [{| user_name := "admin" |}];
     doc_contexts := entries;
     doc_current := current |}.

(** Contexts [a] and [b], [a] selected. *)
Definition docAB : ConfigDoc := docOf [entryA; entryB] (Some "a").

(** Context [a] was deleted; [current-context] still names it. *)
Definition docB_currentA : ConfigDoc := docOf [entryB] (Some "a").

(** Contexts [a] and [b] and, between them, an entry without a cluster. *)
Definition docAB_oneInvalid : ConfigDoc :=
  docOf [entryA; entryNoCluster; entryB] (Some "a").

(** kubectl answers [config view] with exit code [exitCode] and [text]. *)
Definition envOf (exitCode : Z) (text : ConfigDoc) : Env :=
  {| kubectlConfigView :=
       Some {| code := exitCode; stdout := text; stderr := "" |};
     kubectlUseContext := λ _, Some {| code := 0; stdout := ""; stderr := "" |};
     kubeConfigPath := "/home/dev/.kube/config";
     shellCodeError := λ _, "exit code 1" |}.

(** A world in which [text] is committed and both cluster flags are set. *)
Definition worldOf (s : KubeConfigState) (text : ConfigDoc) : World :=
  {| kubeConfigState := s;
     kubeConfig := loadFromString text;
     vscodeContext := λ _, true;
     trace := [];
     stateLog := [] |}.

(** A Git repository source with the given readiness flags. *)
Definition gitRepository (ready progressing : bool) : TreeNode :=
  {| nodeClass := GitRepositoryNode;
     resourceIsReady := ready; resourceIsProgressing := progressing |}.

(** A kustomization workload with the given readiness flags. *)
Definition kustomization (ready progressing : bool) : TreeNode :=
  {| nodeClass := KustomizationNode;
     resourceIsReady := ready; resourceIsProgressing := progressing |}.

(** A config map: a child without a readiness concept. *)
Definition configMap : TreeNode :=
  {| nodeClass := AnyResourceNode;
     resourceIsReady := false; resourceIsProgressing := false |}.

(** The namespace node [flux-system] before its label is computed. *)
Definition fluxSystem (state : TreeItemCollapsibleState) (cs : list TreeNode)
  : NamespaceNode :=
  {| resourceName := Some "flux-system";
     children := cs;
     collapsibleState := state;
     label := "flux-system";
     icon := None |}.

(** A Kubernetes object of the given kind, named [podinfo]. *)
Definition objectOfKind (k : option string) : KubernetesObject :=
  {| kind := k; metadata_name := Some "podinfo" |}.

(** A workspace [/work/app] and a way to relate paths in which only the
    folder [/work/app/clusters/dev] lies inside of it. *)
Definition workspaceEnv (failed : bool) (picked : option (list Uri))
  : KustomizationEnv :=
  {| currentClusterInfoFailed := failed;
     showOpenDialogAnswer := picked;
     workspaceFolders := Some [{| uri := {| fsPath := "/work/app" |} |}];
     path_relative :=
       λ from to,
         if String.eqb to "/work/app/clusters/dev" then "clusters/dev"
         else if String.eqb to from then "" else "../elsewhere";
     path_isAbsolute := λ path, String.prefix "/" path;
     folderGitInfo := λ _, Some {| gitInfo_url := "ssh://git@host/app" |};
     gitRepositoryforGitInfo :=
       λ _, Some {| gr_name := "app"; gr_namespace := "flux-system" |};
     namespacedFluxObject := λ _, Some "flux-system/app" |}.

(** * Proofs *)

(** ** The kubeconfig parser and the differ *)

Lemma contextIterator_valid e :
  validContextEntry e = true → is_Some (contextIterator e).
Proof.
  unfold contextIterator, validContextEntry. intros Hv.
  destruct (raw_name e) as [n|]; [|discriminate].
  destruct (raw_cluster e) as [c|].
  - rewrite Hv. eauto.
  - simpl in Hv. rewrite andb_false_r in Hv. discriminate.
Qed.

Lemma contextIterator_invalid e :
  validContextEntry e = false → contextIterator e = None.
Proof.
  unfold contextIterator. intros Hv.
  destruct (raw_name e), (raw_cluster e); try reflexivity.
  now rewrite Hv.
Qed.

Lemma omap_contextIterator_length (l : list RawContextEntry) :
  forallb validContextEntry l = true →
  length (omap contextIterator l) = length l.
Proof.
  induction l as [|e l IH]; simpl; [reflexivity|].
  intros [He Hl]%andb_prop.
  destruct (contextIterator_valid e He) as [c ->]. simpl.
  f_equal. exact (IH Hl).
Qed.

Lemma omap_contextIterator_drop (l1 : list RawContextEntry) bad l2 :
  validContextEntry bad = false →
  omap contextIterator (l1 ++ bad :: l2) = omap contextIterator (l1 ++ l2).
Proof.
  intros Hbad. rewrite !omap_app. simpl.
  now rewrite (contextIterator_invalid bad Hbad).
Qed.

Lemma orUndefined_idem o : orUndefined (orUndefined o) = orUndefined o.
Proof. unfold orUndefined. destruct (truthy o) eqn:E; [now rewrite E|reflexivity]. Qed.

(** Exporting a parsed context and reading it again gives it back. *)
Lemma contextIterator_export e c :
  contextIterator e = Some c → contextIterator (exportContext c) = Some c.
Proof.
  unfold contextIterator. intros H.
  destruct (raw_name e) as [n|] eqn:En; [|discriminate].
  destruct (raw_cluster e) as [cl|] eqn:Ec; [|discriminate].
  destruct (validContextEntry e) eqn:Ev; [|discriminate].
  injection H as <-. simpl.
  unfold validContextEntry in *. rewrite En, Ec in Ev. simpl in *.
  rewrite Ev. now rewrite !orUndefined_idem.
Qed.

Lemma omap_contextIterator_export (l : list RawContextEntry) :
  omap contextIterator (exportContext <$> omap contextIterator l)
  = omap contextIterator l.
Proof.
  induction l as [|e l IH]; simpl; [reflexivity|].
  destruct (contextIterator e) as [c|] eqn:E; simpl; [|exact IH].
  rewrite (contextIterator_export e c E). f_equal. exact IH.
Qed.

(** What [kubeconfigChanged] commits is the snapshot it was given. *)
Lemma loadFromString_exportConfig text :
  loadFromString (exportConfig (loadFromString text)) = loadFromString text.
Proof.
  unfold loadFromString, exportConfig. simpl.
  now rewrite omap_contextIterator_export.
Qed.

Lemma kcTextChanged_refl kc : kcTextChanged kc kc = false.
Proof. unfold kcTextChanged. apply bool_decide_eq_false. tauto. Qed.

Lemma coveredBy_refl l : coveredBy l l = true.
Proof.
  unfold coveredBy. apply forallb_forall. intros c Hc.
  apply existsb_exists. exists c. split; [exact Hc|].
  unfold sameIdentity. now rewrite !bool_decide_eq_true_2.
Qed.

Lemma kcContextsListChanged_refl kc : kcContextsListChanged kc kc = false.
Proof. unfold kcContextsListChanged. now rewrite coveredBy_refl. Qed.

Lemma kcCurrentContextChanged_refl kc : kcCurrentContextChanged kc kc = false.
Proof. unfold kcCurrentContextChanged. apply bool_decide_eq_false. tauto. Qed.

(** ** The three ways through [syncKubeConfig] *)

Lemma currentContextExists_run w :
  currentContextExists w = (currentContextPresent (kubeConfig w), w).
Proof. reflexivity. Qed.

Lemma syncKubeConfig_failure_world env force w :
  cliFailed (kubectlConfigView env) →
  exec (syncKubeConfig env force) w =
  {| kubeConfigState := Failed;
     kubeConfig := kubeConfig w;
     vscodeContext := vscodeContext w;
     trace := trace w ++
       [InvokeKubectlCommand ConfigView;
        TelemetrySendError FAILED_TO_GET_KUBECTL_CONFIG;
        LoadKubeConfigPath;
        ShowErrorMessage
          ("Failed to load kubeconfig: " +:+ kubeConfigPath env +:+ " "
           +:+ shellCodeError env (kubectlConfigView env))];
     stateLog := stateLog w ++ [Loading; Failed] |}.
Proof.
  intros Hfail. unfold exec, syncKubeConfig.
  destruct (kubectlConfigView env) as [result|] eqn:Hview.
  - simpl in Hfail.
    destruct (code result =? 0)%Z eqn:Hcode; [apply Z.eqb_eq in Hcode; contradiction|].
    cbv [bind ret emit setKubeConfigState invokeKubectlConfigView
           telemetry_sendError loadKubeConfigPath window_showErrorMessage].
    simpl. rewrite Hview, Hcode. simpl. rewrite <- !app_assoc. reflexivity.
  - cbv [bind ret emit setKubeConfigState invokeKubectlConfigView
           telemetry_sendError loadKubeConfigPath window_showErrorMessage].
    simpl. rewrite Hview. simpl. rewrite <- !app_assoc. reflexivity.
Qed.

Lemma syncKubeConfig_unchanged_world env force w result :
  cliSucceeded env result →
  kcTextChanged (kubeConfig w) (loadFromString (stdout result)) = false →
  exec (syncKubeConfig env force) w =
  {| kubeConfigState := Loaded;
     kubeConfig := kubeConfig w;
     vscodeContext := vscodeContext w;
     trace := trace w ++ InvokeKubectlCommand ConfigView
                :: (if force then [LoadApiResources] else []);
     stateLog := stateLog w ++ [Loading; Loaded] |}.
Proof.
  intros [Hview Hcode] Htext. unfold exec, syncKubeConfig.
  cbv [bind ret emit setKubeConfigState invokeKubectlConfigView getKubeConfig
         loadApiResources].
  simpl. rewrite Hview, Hcode. simpl. rewrite Htext.
  destruct force; simpl; rewrite <- !app_assoc; reflexivity.
Qed.

Lemma syncKubeConfig_changed_world env force w result :
  cliSucceeded env result →
  kcTextChanged (kubeConfig w) (loadFromString (stdout result)) = true →
  exec (syncKubeConfig env force) w =
  let new := loadFromString (stdout result) in
  let contextChanged := kcCurrentContextChanged (kubeConfig w) new in
  {| kubeConfigState :=
       if currentContextPresent new then Loaded else NoContextSelected;
     kubeConfig := new;
     vscodeContext :=
       if contextChanged then clearFlags (vscodeContext w) else vscodeContext w;
     trace := trace w ++ InvokeKubectlCommand ConfigView
                :: clearFlagCalls contextChanged
                ++ dispatchCalls contextChanged force
                     (kcContextsListChanged (kubeConfig w) new);
     stateLog := stateLog w ++ Loading :: Loaded
                   :: (if currentContextPresent new then []
                       else [NoContextSelected]) |}.
Proof.
  intros [Hview Hcode] Htext. unfold exec, syncKubeConfig.
  cbv [bind ret emit setKubeConfigState invokeKubectlConfigView getKubeConfig].
  simpl. rewrite Hview, Hcode. simpl. rewrite Htext.
  unfold kubeconfigChanged.
  cbv [bind ret emit setKubeConfigState getKubeConfig kubeConfig_loadFromString
         setVSCodeContext reloadClustersTreeView loadApiResources].
  cbn [kubeConfig]. rewrite currentContextExists_run. cbn [kubeConfig].
  rewrite loadFromString_exportConfig.
  set (new := loadFromString (stdout result)).
  destruct (currentContextPresent new); cbn [negb];
    destruct (kcCurrentContextChanged (kubeConfig w) new); cbn [orb];
    try (destruct force; cbn [orb]);
    try (destruct (kcContextsListChanged (kubeConfig w) new));
    simpl; rewrite <- ?app_assoc; reflexivity.
Qed.

(** ** Claims about [syncKubeConfig] and [setCurrentContext] *)

(** C1. When the kubectl invocation gives no result or a non-zero exit code,
    [syncKubeConfig] ends in state [Failed], shows an error message to the
    user, and returns with the committed [kubeConfig] exactly as it was: the
    only collaborator calls are the invocation itself, the telemetry error,
    the lookup of the kubeconfig path and the error message (nothing is
    reloaded), and the editor's context keys are untouched. *)
Theorem syncKubeConfig_cli_failure env force w :
  cliFailed (kubectlConfigView env) →
  let w' := exec (syncKubeConfig env force) w in
  kubeConfigState w' = Failed
  ∧ (∃ message, ShowErrorMessage message ∈ calls (syncKubeConfig env force) w)
  ∧ calls (syncKubeConfig env force) w
    = [InvokeKubectlCommand ConfigView;
       TelemetrySendError FAILED_TO_GET_KUBECTL_CONFIG;
       LoadKubeConfigPath;
       ShowErrorMessage
         ("Failed to load kubeconfig: " +:+ kubeConfigPath env +:+ " "
          +:+ shellCodeError env (kubectlConfigView env))]
  ∧ kubeConfig w' = kubeConfig w
  ∧ vscodeContext w' = vscodeContext w
  ∧ reloads (calls (syncKubeConfig env force) w) = []
  ∧ stateChanges (syncKubeConfig env force) w = [Loading; Failed].
Proof.
  intros Hfail. unfold calls, stateChanges. cbv zeta.
  rewrite (syncKubeConfig_failure_world env force w Hfail). cbn [trace stateLog
    kubeConfigState kubeConfig vscodeContext].
  rewrite !drop_app_length.
  repeat split; try reflexivity.
  eexists. apply list_elem_of_In. do 3 right. left. reflexivity.
Qed.

Lemma syncKubeConfig_cli_failure_witness :
  cliFailed (kubectlConfigView (envOf 1 docB_currentA))
  ∧ kubeConfigState
      (exec (syncKubeConfig (envOf 1 docB_currentA) true) (worldOf Loaded docAB))
    = Failed
  ∧ kubeConfig
      (exec (syncKubeConfig (envOf 1 docB_currentA) true) (worldOf Loaded docAB))
    = loadFromString docAB.
Proof.
  assert (Hfail : cliFailed (kubectlConfigView (envOf 1 docB_currentA)))
    by (simpl; discriminate).
  destruct (syncKubeConfig_cli_failure (envOf 1 docB_currentA) true
              (worldOf Loaded docAB) Hfail) as (Hstate & _ & _ & Hconfig & _).
  exact (conj Hfail (conj Hstate Hconfig)).
Defined.

(** C8. When kubectl succeeds and the text of the new snapshot is the text of
    the committed one, [syncKubeConfig] commits nothing (the committed
    [kubeConfig] and the editor's context keys stay as they were) and
    reloads no tree view; the resource kinds are reloaded exactly when
    [forceReloadResourceKinds] is set, and nothing else is. *)
Theorem syncKubeConfig_text_unchanged env force w result :
  cliSucceeded env result →
  kcTextChanged (kubeConfig w) (loadFromString (stdout result)) = false →
  let w' := exec (syncKubeConfig env force) w in
  kubeConfig w' = kubeConfig w
  ∧ vscodeContext w' = vscodeContext w
  ∧ calls (syncKubeConfig env force) w
    = InvokeKubectlCommand ConfigView
        :: (if force then [LoadApiResources] else [])
  ∧ reloads (calls (syncKubeConfig env force) w)
    = (if force then [LoadApiResources] else [])
  ∧ kubeConfigState w' = Loaded.
Proof.
  intros Hok Htext. unfold calls. cbv zeta.
  rewrite (syncKubeConfig_unchanged_world env force w result Hok Htext).
  cbn [trace kubeConfigState kubeConfig vscodeContext].
  rewrite drop_app_length.
  destruct force; repeat split; reflexivity.
Qed.

Lemma syncKubeConfig_text_unchanged_witness :
  cliSucceeded (envOf 0 docAB) {| code := 0; stdout := docAB; stderr := "" |}
  ∧ kcTextChanged (kubeConfig (worldOf Loaded docAB)) (loadFromString docAB)
    = false
  ∧ calls (syncKubeConfig (envOf 0 docAB) false) (worldOf Loaded docAB)
    = [InvokeKubectlCommand ConfigView]
  ∧ calls (syncKubeConfig (envOf 0 docAB) true) (worldOf Loaded docAB)
    = [InvokeKubectlCommand ConfigView; LoadApiResources].
Proof.
  assert (Hok : cliSucceeded (envOf 0 docAB)
                  {| code := 0; stdout := docAB; stderr := "" |})
    by (split; reflexivity).
  assert (Htext : kcTextChanged (kubeConfig (worldOf Loaded docAB))
                    (loadFromString docAB) = false)
    by (vm_compute; reflexivity).
  destruct (syncKubeConfig_text_unchanged (envOf 0 docAB) false
              (worldOf Loaded docAB) _ Hok Htext) as (_ & _ & Hquiet & _).
  destruct (syncKubeConfig_text_unchanged (envOf 0 docAB) true
              (worldOf Loaded docAB) _ Hok Htext) as (_ & _ & Hforced & _).
  exact (conj Hok (conj Htext (conj Hquiet Hforced))).
Defined.

(** C5. When kubectl succeeds and the text changed: if the current context
    changed or [forceReloadResourceKinds] is set, the cluster tree view and
    the resource kinds are both reloaded (in this order, once each);
    otherwise, if the contexts list changed, the cluster tree view alone is
    reloaded; otherwise nothing is. *)
Theorem syncKubeConfig_dispatch env force w result :
  cliSucceeded env result →
  kcTextChanged (kubeConfig w) (loadFromString (stdout result)) = true →
  let new := loadFromString (stdout result) in
  reloads (calls (syncKubeConfig env force) w)
  = if kcCurrentContextChanged (kubeConfig w) new || force
    then [ReloadClustersTreeView; LoadApiResources]
    else if kcContextsListChanged (kubeConfig w) new
         then [ReloadClustersTreeView]
         else [].
Proof.
  intros Hok Htext. unfold calls. cbv zeta.
  rewrite (syncKubeConfig_changed_world env force w result Hok Htext).
  cbn [trace]. rewrite drop_app_length.
  destruct (kcCurrentContextChanged _ _), force,
    (kcContextsListChanged _ _); reflexivity.
Qed.

Lemma syncKubeConfig_dispatch_witness :
  cliSucceeded (envOf 0 docB_currentA)
    {| code := 0; stdout := docB_currentA; stderr := "" |}
  ∧ kcTextChanged (kubeConfig (worldOf Loaded docAB))
      (loadFromString docB_currentA) = true
  ∧ reloads (calls (syncKubeConfig (envOf 0 docB_currentA) false)
               (worldOf Loaded docAB))
    = [ReloadClustersTreeView]
  ∧ reloads (calls (syncKubeConfig (envOf 0 docB_currentA) true)
               (worldOf Loaded docAB))
    = [ReloadClustersTreeView; LoadApiResources].
Proof.
  assert (Hok : cliSucceeded (envOf 0 docB_currentA)
                  {| code := 0; stdout := docB_currentA; stderr := "" |})
    by (split; reflexivity).
  assert (Htext : kcTextChanged (kubeConfig (worldOf Loaded docAB))
                    (loadFromString docB_currentA) = true)
    by (vm_compute; reflexivity).
  pose proof (syncKubeConfig_dispatch (envOf 0 docB_currentA) false
                (worldOf Loaded docAB) _ Hok Htext) as Hlist.
  pose proof (syncKubeConfig_dispatch (envOf 0 docB_currentA) true
                (worldOf Loaded docAB) _ Hok Htext) as Hforced.
  exact (conj Hok (conj Htext (conj Hlist Hforced))).
Defined.

(** C6, as stated, fails on the code in two ways.
    (1) The committed snapshot has contexts [b] and current context [a];
    kubectl returns the same text. The current context is not in the new
    snapshot's context list, the text did not change, and the cycle ends in
    state [Loaded] with both cluster flags still set.
    (2) The committed snapshot has contexts [a], [b] and current context [a];
    kubectl returns a text without context [a] whose current context is still
    [a]. The cycle ends in state [NoContextSelected], and both cluster flags
    are still set: the name of the current context did not change. *)
Lemma syncKubeConfig_context_gone_counterexample :
  (let w := worldOf NoContextSelected docB_currentA in
   let w' := exec (syncKubeConfig (envOf 0 docB_currentA) false) w in
   currentContextPresent (kubeConfig w') = false
   ∧ kubeConfigState w' = Loaded
   ∧ vscodeContext w' ClusterUnreachable = true
   ∧ vscodeContext w' CurrentClusterGitOpsNotEnabled = true)
  ∧ (let w := worldOf Loaded docAB in
     let w' := exec (syncKubeConfig (envOf 0 docB_currentA) false) w in
     currentContextPresent (kubeConfig w) = true
     ∧ currentContextPresent (kubeConfig w') = false
     ∧ kubeConfigState w' = NoContextSelected
     ∧ vscodeContext w' ClusterUnreachable = true
     ∧ vscodeContext w' CurrentClusterGitOpsNotEnabled = true
     ∧ calls (syncKubeConfig (envOf 0 docB_currentA) false) w
       = [InvokeKubectlCommand ConfigView; ReloadClustersTreeView]).
Proof. vm_compute. repeat split; reflexivity. Qed.

(** C6, amended. When kubectl succeeds, the text changed and the current
    context of the new snapshot is not in its context list, the new snapshot
    is committed and the cycle ends in state [NoContextSelected]. The two
    cluster flags are cleared when the differ reports that the current
    context changed, and all context keys are left as they were when it does
    not. *)
Theorem syncKubeConfig_context_gone env force w result :
  cliSucceeded env result →
  kcTextChanged (kubeConfig w) (loadFromString (stdout result)) = true →
  currentContextPresent (loadFromString (stdout result)) = false →
  let new := loadFromString (stdout result) in
  let w' := exec (syncKubeConfig env force) w in
  kubeConfig w' = new
  ∧ kubeConfigState w' = NoContextSelected
  ∧ stateChanges (syncKubeConfig env force) w
    = [Loading; Loaded; NoContextSelected]
  ∧ (kcCurrentContextChanged (kubeConfig w) new = true →
     vscodeContext w' ClusterUnreachable = false
     ∧ vscodeContext w' CurrentClusterGitOpsNotEnabled = false
     ∧ SetVSCodeContext ClusterUnreachable false
         ∈ calls (syncKubeConfig env force) w
     ∧ SetVSCodeContext CurrentClusterGitOpsNotEnabled false
         ∈ calls (syncKubeConfig env force) w)
  ∧ (kcCurrentContextChanged (kubeConfig w) new = false →
     vscodeContext w' = vscodeContext w).
Proof.
  intros Hok Htext Hgone. unfold calls, stateChanges. cbv zeta.
  rewrite (syncKubeConfig_changed_world env force w result Hok Htext).
  cbv zeta. cbn [trace stateLog kubeConfigState kubeConfig vscodeContext].
  rewrite Hgone, !drop_app_length.
  do 3 (split; [reflexivity|]). split.
  - intros ->. repeat split.
    + apply list_elem_of_In. right. right. left. reflexivity.
    + apply list_elem_of_In. right. left. reflexivity.
  - intros ->. reflexivity.
Qed.

Lemma syncKubeConfig_context_gone_witness :
  cliSucceeded (envOf 0 (docOf [entryB] None))
    {| code := 0; stdout := docOf [entryB] None; stderr := "" |}
  ∧ kubeConfigState
      (exec (syncKubeConfig (envOf 0 (docOf [entryB] None)) false)
         (worldOf Loaded docAB))
    = NoContextSelected
  ∧ vscodeContext
      (exec (syncKubeConfig (envOf 0 (docOf [entryB] None)) false)
         (worldOf Loaded docAB)) ClusterUnreachable
    = false.
Proof.
  assert (Hok : cliSucceeded (envOf 0 (docOf [entryB] None))
                  {| code := 0; stdout := docOf [entryB] None; stderr := "" |})
    by (split; reflexivity).
  destruct (syncKubeConfig_context_gone (envOf 0 (docOf [entryB] None)) false
              (worldOf Loaded docAB) _ Hok)
    as (_ & Hstate & _ & Hflags & _);
    [vm_compute; reflexivity | vm_compute; reflexivity |].
  destruct Hflags as (Hunreachable & _); [vm_compute; reflexivity|].
  exact (conj Hok (conj Hstate Hunreachable)).
Defined.

(** C2. When kubectl succeeds with a text whose context entries are [N]
    valid ones and a single structurally invalid one, the new snapshot holds
    exactly the contexts of the [N] valid entries, in order; it is what a
    changed text commits; and the cycle sets the state to [Loaded], never to
    [Failed]: it ends in [Loaded], or in [NoContextSelected] when the text
    changed and the current context is not among the contexts. *)
Theorem syncKubeConfig_partial_parse env force w result
    (l1 l2 : list RawContextEntry) (bad : RawContextEntry) :
  cliSucceeded env result →
  doc_contexts (stdout result) = l1 ++ bad :: l2 →
  forallb validContextEntry (l1 ++ l2) = true →
  validContextEntry bad = false →
  let new := loadFromString (stdout result) in
  let w' := exec (syncKubeConfig env force) w in
  getContexts new = omap contextIterator (l1 ++ l2)
  ∧ length (getContexts new) = length (l1 ++ l2)
  ∧ (kcTextChanged (kubeConfig w) new = true → kubeConfig w' = new)
  ∧ Loaded ∈ stateChanges (syncKubeConfig env force) w
  ∧ (Failed ∉ stateChanges (syncKubeConfig env force) w)
  ∧ kubeConfigState w' ≠ Failed
  ∧ ((currentContextPresent new = true
      ∨ kcTextChanged (kubeConfig w) new = false)
     → kubeConfigState w' = Loaded).
Proof.
  intros Hok Hdoc Hvalid Hbad. cbv zeta.
  assert (Hnew : getContexts (loadFromString (stdout result))
                 = omap contextIterator (l1 ++ l2)).
  { unfold getContexts, loadFromString. cbn [contexts].
    rewrite Hdoc. now apply omap_contextIterator_drop. }
  split; [exact Hnew|].
  split; [rewrite Hnew; now apply omap_contextIterator_length|].
  unfold stateChanges.
  destruct (kcTextChanged (kubeConfig w) (loadFromString (stdout result)))
    eqn:Htext.
  - rewrite (syncKubeConfig_changed_world env force w result Hok Htext).
    cbv zeta. cbn [stateLog kubeConfigState kubeConfig].
    rewrite drop_app_length.
    destruct (currentContextPresent (loadFromString (stdout result)));
      repeat split; try reflexivity; try discriminate;
      try (apply list_elem_of_In; right; left; reflexivity);
      try (intros [?|?]; discriminate);
      rewrite list_elem_of_In; simpl; intros H; intuition discriminate.
  - rewrite (syncKubeConfig_unchanged_world env force w result Hok Htext).
    cbn [stateLog kubeConfigState kubeConfig].
    rewrite drop_app_length.
    repeat split; try reflexivity; try discriminate;
      try (apply list_elem_of_In; right; left; reflexivity).
    rewrite list_elem_of_In; simpl; intros H; intuition discriminate.
Qed.

Lemma syncKubeConfig_partial_parse_witness :
  validContextEntry entryNoCluster = false
  ∧ length (getContexts (loadFromString docAB_oneInvalid)) = 2%nat
  ∧ kubeConfig (exec (syncKubeConfig (envOf 0 docAB_oneInvalid) false)
                  initialWorld)
    = loadFromString docAB
  ∧ kubeConfigState (exec (syncKubeConfig (envOf 0 docAB_oneInvalid) false)
                       initialWorld)
    = Loaded.
Proof.
  assert (Hok : cliSucceeded (envOf 0 docAB_oneInvalid)
            {| code := 0; stdout := docAB_oneInvalid; stderr := "" |})
    by (split; reflexivity).
  assert (Hbad : validContextEntry entryNoCluster = false) by reflexivity.
  destruct (syncKubeConfig_partial_parse (envOf 0 docAB_oneInvalid) false
              initialWorld _ [entryA] [entryB] entryNoCluster Hok
              eq_refl eq_refl Hbad)
    as (_ & Hlen & Hcommit & _ & _ & _ & Hstate).
  refine (conj Hbad (conj Hlen (conj (Hcommit _) (Hstate _)))).
  - vm_compute; reflexivity.
  - left. vm_compute; reflexivity.
Defined.

(** C10. When [contextName] is the current context of the committed
    kubeconfig, [setCurrentContext] returns [{isChanged: false}] and leaves
    the world as it was: kubectl is not invoked (no collaborator is called),
    and the kubeconfig and its current context are unchanged. *)
Theorem setCurrentContext_already_current env w contextName :
  getCurrentContext (kubeConfig w) = Some contextName →
  setCurrentContext env contextName w = (Some {| isChanged := false |}, w)
  ∧ calls (setCurrentContext env contextName) w = []
  ∧ kubeConfig (exec (setCurrentContext env contextName) w) = kubeConfig w.
Proof.
  intros Hcurrent.
  assert (Hrun : setCurrentContext env contextName w
                 = (Some {| isChanged := false |}, w)).
  { unfold setCurrentContext, bind, getKubeConfig, ret.
    now rewrite bool_decide_eq_true_2. }
  unfold calls, exec. rewrite Hrun. cbn [snd].
  repeat split. apply drop_all.
Qed.

Lemma setCurrentContext_already_current_witness :
  getCurrentContext (kubeConfig (worldOf Loaded docAB)) = Some "a"
  ∧ setCurrentContext (envOf 0 docAB) "a" (worldOf Loaded docAB)
    = (Some {| isChanged := false |}, worldOf Loaded docAB).
Proof.
  assert (Hcurrent : getCurrentContext (kubeConfig (worldOf Loaded docAB))
                     = Some "a") by reflexivity.
  destruct (setCurrentContext_already_current (envOf 0 docAB)
              (worldOf Loaded docAB) "a" Hcurrent) as (Hrun & _).
  exact (conj Hcurrent Hrun).
Defined.

(** ** Further properties of [syncKubeConfig] and [setCurrentContext] *)

(** Two cycles in a row in which kubectl succeeds with the same text: the
    second one commits nothing, leaves the context keys as they were and
    reloads only the resource kinds, and only when it is forced. *)
Theorem syncKubeConfig_repeat env force1 force2 w result :
  cliSucceeded env result →
  let w1 := exec (syncKubeConfig env force1) w in
  let w2 := exec (syncKubeConfig env force2) w1 in
  kubeConfig w2 = kubeConfig w1
  ∧ vscodeContext w2 = vscodeContext w1
  ∧ kubeConfigState w2 = Loaded
  ∧ reloads (calls (syncKubeConfig env force2) w1)
    = (if force2 then [LoadApiResources] else []).
Proof.
  intros Hok. cbv zeta.
  set (w1 := exec (syncKubeConfig env force1) w).
  assert (Hsame : kcTextChanged (kubeConfig w1) (loadFromString (stdout result))
                  = false).
  { subst w1.
    destruct (kcTextChanged (kubeConfig w) (loadFromString (stdout result)))
      eqn:Htext.
    - rewrite (syncKubeConfig_changed_world env force1 w result Hok Htext).
      apply kcTextChanged_refl.
    - now rewrite (syncKubeConfig_unchanged_world env force1 w result Hok Htext). }
  unfold calls.
  rewrite (syncKubeConfig_unchanged_world env force2 w1 result Hok Hsame).
  cbn [trace kubeConfigState kubeConfig vscodeContext].
  rewrite drop_app_length. destruct force2; repeat split; reflexivity.
Qed.

Lemma syncKubeConfig_repeat_witness :
  cliSucceeded (envOf 0 docAB_oneInvalid)
    {| code := 0; stdout := docAB_oneInvalid; stderr := "" |}
  ∧ reloads
      (calls (syncKubeConfig (envOf 0 docAB_oneInvalid) false)
         (exec (syncKubeConfig (envOf 0 docAB_oneInvalid) false) initialWorld))
    = [].
Proof.
  assert (Hok : cliSucceeded (envOf 0 docAB_oneInvalid)
            {| code := 0; stdout := docAB_oneInvalid; stderr := "" |})
    by (split; reflexivity).
  destruct (syncKubeConfig_repeat (envOf 0 docAB_oneInvalid) false false
              initialWorld _ Hok) as (_ & _ & _ & Hquiet).
  exact (conj Hok Hquiet).
Defined.


(** When [contextName] is not the current context, [setCurrentContext]
    invokes [kubectl config use-context] once. If the result carries text on
    its standard error, the failure is reported (telemetry and an error
    message) and the result is [undefined]; otherwise the result is
    [{isChanged: true}]. The committed kubeconfig and the sync state are not
    touched either way. *)
Theorem setCurrentContext_switch env w contextName :
  getCurrentContext (kubeConfig w) ≠ Some contextName →
  let result := kubectlUseContext env contextName in
  let w' := exec (setCurrentContext env contextName) w in
  kubeConfig w' = kubeConfig w
  ∧ kubeConfigState w' = kubeConfigState w
  ∧ if truthy (stderr <$> result) then
      fst (setCurrentContext env contextName w) = None
      ∧ calls (setCurrentContext env contextName) w
        = [InvokeKubectlCommand (ConfigUseContext contextName);
           TelemetrySendError FAILED_TO_SET_CURRENT_KUBERNETES_CONTEXT;
           ShowErrorMessage
             ("Failed to set kubectl context to " +:+ contextName +:+ ": "
              +:+ default "undefined" (stderr <$> result))]
    else
      fst (setCurrentContext env contextName w) = Some {| isChanged := true |}
      ∧ calls (setCurrentContext env contextName) w
        = [InvokeKubectlCommand (ConfigUseContext contextName)].
Proof.
  intros Hother. cbv zeta. unfold calls, exec, setCurrentContext.
  cbv [bind ret getKubeConfig invokeKubectlUseContext emit telemetry_sendError
         window_showErrorMessage].
  rewrite bool_decide_eq_false_2 by exact Hother.
  destruct (truthy (stderr <$> kubectlUseContext env contextName));
    cbn [fst snd trace kubeConfig kubeConfigState];
    rewrite <- ?app_assoc, drop_app_length; repeat split; reflexivity.
Qed.

Lemma setCurrentContext_switch_witness :
  getCurrentContext (kubeConfig (worldOf Loaded docAB)) ≠ Some "b"
  ∧ fst (setCurrentContext (envOf 0 docAB) "b" (worldOf Loaded docAB))
    = Some {| isChanged := true |}
  ∧ calls (setCurrentContext (envOf 0 docAB) "b") (worldOf Loaded docAB)
    = [InvokeKubectlCommand (ConfigUseContext "b")].
Proof.
  assert (Hother : getCurrentContext (kubeConfig (worldOf Loaded docAB))
                   ≠ Some "b") by discriminate.
  destruct (setCurrentContext_switch (envOf 0 docAB) (worldOf Loaded docAB)
              "b" Hother) as (_ & _ & Hswitch).
  exact (conj Hother Hswitch).
Defined.

(** ** The loop of [updateLabel] *)

Local Open Scope nat_scope.

Lemma countIf_cons p c cs :
  countIf p (c :: cs) = (if p c then 1 else 0) + countIf p cs.
Proof. unfold countIf. simpl. now destruct (p c). Qed.

Lemma countIf_app p (l1 l2 : list TreeNode) :
  countIf p (l1 ++ l2) = countIf p l1 + countIf p l2.
Proof. unfold countIf. now rewrite List.filter_app, length_app. Qed.

(** The loop adds to its two counters the number of ready or untracked
    children and the number of progressing children that are not ready. *)
Lemma fold_countChild cs r p :
  fold_left countChild cs (r, p)
  = (r + readyTracked cs + untrackedCount cs, p + progressingNotReady cs).
Proof.
  unfold readyTracked, untrackedCount, progressingNotReady.
  revert r p. induction cs as [|c cs IH]; intros r p.
  - unfold countIf. simpl. f_equal; lia.
  - cbn [fold_left]. rewrite !countIf_cons.
    unfold countChild at 2. fold (tracked c).
    destruct (tracked c), (resourceIsReady c), (resourceIsProgressing c);
      rewrite IH; cbn [andb negb]; f_equal; lia.
Qed.

Lemma readyLength_count cs :
  readyLength cs = readyTracked cs + untrackedCount cs.
Proof. unfold readyLength, countChildren. now rewrite fold_countChild. Qed.

Lemma loadingLength_count cs : loadingLength cs = progressingNotReady cs.
Proof. unfold loadingLength, countChildren. now rewrite fold_countChild. Qed.

(** Every child is counted once: as ready, as untracked, as progressing or
    as an error. *)
Lemma count_partition cs :
  readyTracked cs + untrackedCount cs + progressingNotReady cs + errorCount cs
  = length cs.
Proof.
  unfold readyTracked, untrackedCount, progressingNotReady, errorCount.
  induction cs as [|c cs IH]; [reflexivity|].
  rewrite !countIf_cons. cbn [length].
  destruct (tracked c), (resourceIsReady c), (resourceIsProgressing c);
    cbn [andb negb]; lia.
Qed.

Lemma progressing_exclusive cs :
  Forall flagsExclusive cs → progressingNotReady cs = progressingTracked cs.
Proof.
  unfold progressingNotReady, progressingTracked.
  induction 1 as [|c cs Hc _ IH]; [reflexivity|].
  rewrite !countIf_cons, IH. f_equal.
  unfold flagsExclusive in Hc.
  destruct (tracked c), (resourceIsReady c), (resourceIsProgressing c);
    cbn [andb negb]; try reflexivity.
  exfalso. apply Hc; [reflexivity|]. split; reflexivity.
Qed.

Lemma readyLength_untracked l1 c l2 :
  tracked c = false →
  readyLength (l1 ++ c :: l2) = S (readyLength (l1 ++ l2)).
Proof.
  intros Hc. rewrite !readyLength_count.
  unfold readyTracked, untrackedCount.
  rewrite !countIf_app, !countIf_cons, Hc. cbn [andb negb]. lia.
Qed.

Lemma loadingLength_untracked l1 c l2 :
  tracked c = false →
  loadingLength (l1 ++ c :: l2) = loadingLength (l1 ++ l2).
Proof.
  intros Hc. rewrite !loadingLength_count.
  unfold progressingNotReady.
  rewrite !countIf_app, !countIf_cons, Hc. cbn [andb negb]. lia.
Qed.

Lemma errorCount_untracked l1 c l2 :
  tracked c = false → errorCount (l1 ++ c :: l2) = errorCount (l1 ++ l2).
Proof.
  intros Hc. unfold errorCount.
  rewrite !countIf_app, !countIf_cons, Hc. cbn [andb negb]. lia.
Qed.

Lemma append_assoc (s1 s2 s3 : string) :
  (s1 +:+ s2) +:+ s3 = s1 +:+ s2 +:+ s3.
Proof.
  induction s1 as [|a s1 IH]; [reflexivity|].
  change (String a ((s1 +:+ s2) +:+ s3) = String a (s1 +:+ s2 +:+ s3)).
  now rewrite IH.
Qed.

(** ** Claims about [NamespaceNode.updateLabel] *)

(** C3. For a namespace node whose sources and workloads have mutually
    exclusive readiness flags, the loop of [updateLabel] computes
    ready = (sources and workloads with [resourceIsReady]) + (children of any
    other class) and progressing = (sources and workloads with
    [resourceIsProgressing]); with icons enabled the icon is [Success] if
    ready = total, else [Progressing] if ready + progressing = total, else
    [Warning]. A child of another class counts toward ready, not toward
    progressing and not as an error: with or without it the icon is the
    same. *)
Theorem updateLabel_icon (node : NamespaceNode) :
  Forall flagsExclusive (children node) →
  let cs := children node in
  let ready := readyTracked cs + untrackedCount cs in
  let progressing := progressingTracked cs in
  let valid := ready + progressing in
  let total := length cs in
  readyLength cs = ready
  ∧ loadingLength cs = progressing
  ∧ validLength cs = valid
  ∧ icon (updateLabel true node)
    = Some (if bool_decide (ready = total) then Success
            else if bool_decide (valid = total) then Progressing
            else Warning)
  ∧ (∀ l1 c l2, cs = l1 ++ c :: l2 → tracked c = false →
       readyLength cs = S (readyLength (l1 ++ l2))
       ∧ loadingLength cs = loadingLength (l1 ++ l2)
       ∧ errorCount cs = errorCount (l1 ++ l2)
       ∧ aggregateIcon true cs = aggregateIcon true (l1 ++ l2)).
Proof.
  intros Hexcl. cbv zeta.
  assert (Hready : readyLength (children node)
                   = readyTracked (children node) + untrackedCount (children node))
    by apply readyLength_count.
  assert (Hloading : loadingLength (children node)
                     = progressingTracked (children node)).
  { rewrite loadingLength_count. now apply progressing_exclusive. }
  split; [exact Hready|]. split; [exact Hloading|].
  split; [unfold validLength; now rewrite Hready, Hloading|].
  split.
  - cbn [updateLabel icon]. unfold aggregateIcon, validLength, totalLength.
    rewrite Hready, Hloading.
    repeat case_bool_decide; reflexivity.
  - intros l1 c l2 -> Hc.
    pose proof (readyLength_untracked l1 c l2 Hc) as Hr.
    pose proof (loadingLength_untracked l1 c l2 Hc) as Hl.
    split; [exact Hr|]. split; [exact Hl|].
    split; [now apply errorCount_untracked|].
    unfold aggregateIcon, validLength, totalLength.
    rewrite Hr, Hl, !length_app. cbn [length].
    repeat case_bool_decide; try reflexivity; lia.
Qed.

Lemma updateLabel_icon_witness :
  Forall flagsExclusive
    [gitRepository true false; kustomization false true; configMap]
  ∧ readyLength [gitRepository true false; kustomization false true; configMap]
    = 2
  ∧ loadingLength
      [gitRepository true false; kustomization false true; configMap]
    = 1
  ∧ icon (updateLabel true
            (fluxSystem Collapsed
               [gitRepository true false; kustomization false true; configMap]))
    = Some Progressing.
Proof.
  assert (Hexcl : Forall flagsExclusive
            [gitRepository true false; kustomization false true; configMap]).
  { repeat constructor; intros _ [Hr Hp]; discriminate. }
  destruct (updateLabel_icon
              (fluxSystem Collapsed
                 [gitRepository true false; kustomization false true; configMap])
              Hexcl) as (Hready & Hloading & _ & Hicon & _).
  exact (conj Hexcl (conj Hready (conj Hloading Hicon))).
Defined.

(** C4. For every namespace node and every list of children, the counts that
    [updateLabel] computes over the children it leaves in the node satisfy
    valid <= total and ready + progressing + (total - valid) = total with
    valid = ready + progressing; total - valid is the number of sources and
    workloads that are neither ready nor progressing. *)
Theorem updateLabel_aggregate_invariant (withIcons : bool)
    (node : NamespaceNode) :
  let cs := children (updateLabel withIcons node) in
  cs = children node
  ∧ validLength cs = readyLength cs + loadingLength cs
  ∧ validLength cs ≤ totalLength cs
  ∧ readyLength cs + loadingLength cs + (totalLength cs - validLength cs)
    = totalLength cs
  ∧ totalLength cs - validLength cs = errorCount cs.
Proof.
  cbv zeta. cbn [updateLabel children].
  pose proof (count_partition (children node)) as Hpart.
  unfold validLength, totalLength.
  rewrite readyLength_count, loadingLength_count.
  repeat split; lia.
Qed.

(** C7, as stated, fails on the code. A collapsed node whose only child is a
    ready source has all its children ready, and its label is
    ["flux-system (1)"], not the plain name. A collapsed node with a ready,
    a progressing and a failed child gets the label ["flux-system (2/3)"]:
    the number before the slash is ready + progressing = 2, not ready = 1. *)
Lemma updateLabel_label_counterexample :
  (let node := fluxSystem Collapsed [gitRepository true false] in
   readyLength (children node) = totalLength (children node)
   ∧ label (updateLabel true node) = "flux-system (1)"
   ∧ label (updateLabel true node) ≠ "flux-system")
  ∧ (let node :=
       fluxSystem Collapsed
         [gitRepository true false; kustomization false true;
          kustomization false false] in
     readyLength (children node) = 1
     ∧ totalLength (children node) = 3
     ∧ label (updateLabel true node) = "flux-system (2/3)"
     ∧ label (updateLabel true node) ≠ "flux-system (1/3)").
Proof. vm_compute. repeat split; try reflexivity; discriminate. Qed.

(** C7, amended. [updateLabel] sets the label from the counts of its loop:
    ["name (valid/total)"] with valid = ready + progressing when the node is
    collapsed and valid differs from total, ["name (total)"] when the node is
    collapsed and valid = total, and the plain ["name"] when the node is not
    collapsed. The icon is set from the same counts. *)
Theorem updateLabel_label (withIcons : bool) (node : NamespaceNode) :
  let node' := updateLabel withIcons node in
  let cs := children node in
  let name := templateString (resourceName node) in
  let valid := readyLength cs + loadingLength cs in
  let total := length cs in
  (collapsibleState node = Collapsed → valid ≠ total →
     label node' = name +:+ " (" +:+ numberToString valid +:+ "/"
                   +:+ numberToString total +:+ ")")
  ∧ (collapsibleState node = Collapsed → valid = total →
     label node' = name +:+ " (" +:+ numberToString total +:+ ")")
  ∧ (collapsibleState node ≠ Collapsed → label node' = name)
  ∧ icon node' = aggregateIcon withIcons cs
  ∧ collapsibleState node' = collapsibleState node.
Proof.
  cbv zeta. cbn [updateLabel label icon collapsibleState].
  unfold aggregateLabel, validLength, totalLength.
  repeat split.
  - intros -> Hne. rewrite bool_decide_eq_true_2 by reflexivity.
    rewrite bool_decide_eq_false_2 by congruence.
    now rewrite !append_assoc.
  - intros -> Heq. rewrite bool_decide_eq_true_2 by reflexivity.
    rewrite bool_decide_eq_true_2 by congruence. reflexivity.
  - intros Hne. now rewrite bool_decide_eq_false_2.
Qed.

Lemma updateLabel_label_witness :
  label (updateLabel true
           (fluxSystem Collapsed
              [gitRepository true false; kustomization false false]))
  = "flux-system (1/2)"
  ∧ label (updateLabel true
             (fluxSystem Collapsed
                [gitRepository true false; kustomization false true]))
    = "flux-system (2)"
  ∧ label (updateLabel true
             (fluxSystem Expanded
                [gitRepository true false; kustomization false false]))
    = "flux-system".
Proof.
  destruct (updateLabel_label true
              (fluxSystem Collapsed
                 [gitRepository true false; kustomization false false]))
    as (Hpartial & _).
  destruct (updateLabel_label true
              (fluxSystem Collapsed
                 [gitRepository true false; kustomization false true]))
    as (_ & Hall & _).
  destruct (updateLabel_label true
              (fluxSystem Expanded
                 [gitRepository true false; kustomization false false]))
    as (_ & _ & Hplain & _).
  split; [apply Hpartial; [reflexivity | vm_compute; discriminate]|].
  split; [apply Hall; reflexivity|].
  apply Hplain. discriminate.
Defined.

(** ** Claims about the node registry *)

(** Closes [k ∉ l] for a string literal [k] and a list [l] of literals. *)
Ltac not_in_literals :=
  let H := fresh "H" in
  intros H;
  repeat (apply elem_of_cons in H as [H|H]; [discriminate H|]);
  exact (proj1 (elem_of_nil _) H).

(** The own properties of [nodeConstructors] are the kinds of the [Kind]
    enumeration. *)
Lemma supportedKinds_own k :
  k ∈ supportedKinds ↔ is_Some (nodeConstructors !! k).
Proof.
  split.
  - intros Hk. unfold supportedKinds in Hk.
    repeat (apply elem_of_cons in Hk as [->|Hk]; [vm_compute; eauto|]).
    now apply elem_of_nil in Hk.
  - intros [cls Hcls]. unfold nodeConstructors in Hcls.
    apply elem_of_list_to_map_2 in Hcls.
    repeat (apply elem_of_cons in Hcls as [[= -> _]|Hcls];
            [unfold supportedKinds; set_solver|]).
    now apply elem_of_nil in Hcls.
Qed.

Lemma nodeConstructors_get_own k cls :
  nodeConstructors !! k = Some cls →
  nodeConstructors_get k = Some (NodeConstructor cls).
Proof. unfold nodeConstructors_get. now intros ->. Qed.

Lemma nodeConstructors_get_unknown k :
  k ∉ supportedKinds → objectPrototype !! k = None →
  nodeConstructors_get k = None.
Proof.
  intros Hk Hproto. unfold nodeConstructors_get.
  destruct (nodeConstructors !! k) as [cls|] eqn:Hown; [|exact Hproto].
  exfalso. apply Hk. apply supportedKinds_own. eauto.
Qed.

(** Without a kind, or with the empty kind, the result is [undefined]. *)
Lemma makeTreeNode_no_kind object :
  truthy (kind object) = false → makeTreeNode object = Return None.
Proof. unfold makeTreeNode. now intros ->. Qed.

(** A kind of the table yields a node of the class that the table gives. *)
Lemma makeTreeNode_supported object k :
  kind object = Some k → k ∈ supportedKinds →
  ∃ cls, nodeConstructors !! k = Some cls
         ∧ makeTreeNode object = Return (Some (NewNode cls object)).
Proof.
  intros Hkind Hk.
  assert (Hne : truthy (Some k) = true).
  { unfold supportedKinds in Hk.
    repeat (apply elem_of_cons in Hk as [->|Hk]; [reflexivity|]).
    now apply elem_of_nil in Hk. }
  apply supportedKinds_own in Hk as [cls Hcls]. exists cls.
  split; [exact Hcls|].
  unfold makeTreeNode. rewrite Hkind, Hne. cbn [negb default from_option id].
  now rewrite (nodeConstructors_get_own k cls Hcls).
Qed.

(** A kind that is neither in the table nor the name of a member of
    [Object.prototype] yields [undefined]. *)
Lemma makeTreeNode_unknown_kind object k :
  kind object = Some k → k ∉ supportedKinds → objectPrototype !! k = None →
  makeTreeNode object = Return None.
Proof.
  intros Hkind Hk Hproto. unfold makeTreeNode. rewrite Hkind.
  destruct (truthy (Some k)); cbn [negb default from_option id]; [|reflexivity].
  now rewrite (nodeConstructors_get_unknown k Hk Hproto).
Qed.

Lemma makeTreeNode_unknown_kind_witness :
  makeTreeNode (objectOfKind (Some "Secret")) = Return None.
Proof.
  apply (makeTreeNode_unknown_kind (objectOfKind (Some "Secret")) "Secret").
  - reflexivity.
  - unfold supportedKinds. not_in_literals.
  - vm_compute. reflexivity.
Defined.

Lemma makeTreeNode_no_kind_witness :
  makeTreeNode (objectOfKind None) = Return None
  ∧ makeTreeNode (objectOfKind (Some "")) = Return None.
Proof.
  split.
  - apply (makeTreeNode_no_kind (objectOfKind None)). reflexivity.
  - apply (makeTreeNode_no_kind (objectOfKind (Some ""))). reflexivity.
Defined.

Lemma makeTreeNode_supported_witness :
  ∃ cls, nodeConstructors !! "Kustomization" = Some cls
         ∧ makeTreeNode (objectOfKind (Some "Kustomization"))
           = Return (Some (NewNode cls (objectOfKind (Some "Kustomization")))).
Proof.
  apply (makeTreeNode_supported (objectOfKind (Some "Kustomization"))
           "Kustomization").
  - reflexivity.
  - unfold supportedKinds. apply list_elem_of_In. do 5 right. left. reflexivity.
Defined.

(** The name of a built-in method of [Object.prototype] as kind makes
    [makeTreeNode] throw. *)
Lemma makeTreeNode_inherited_method object k name :
  kind object = Some k → k ∉ supportedKinds →
  objectPrototype !! k = Some (BuiltinMethod name) →
  makeTreeNode object = Throw (TypeError "constructor is not a constructor").
Proof.
  intros Hkind Hk Hproto. unfold makeTreeNode. rewrite Hkind.
  destruct (truthy (Some k)) eqn:Hne; cbn [negb default from_option id].
  - unfold nodeConstructors_get.
    destruct (nodeConstructors !! k) as [cls|] eqn:Hown.
    + exfalso. apply Hk. apply supportedKinds_own. eauto.
    + now rewrite Hproto.
  - destruct k; [|discriminate Hne]. vm_compute in Hproto. discriminate.
Qed.

Lemma makeTreeNode_inherited_method_witness :
  makeTreeNode (objectOfKind (Some "hasOwnProperty"))
  = Throw (TypeError "constructor is not a constructor").
Proof.
  apply (makeTreeNode_inherited_method (objectOfKind (Some "hasOwnProperty"))
           "hasOwnProperty" "hasOwnProperty").
  - reflexivity.
  - unfold supportedKinds. not_in_literals.
  - vm_compute. reflexivity.
Defined.

(** C9 fails on the code at the kind ["toString"]: it is a string that is
    not in the supported table, the lookup [nodeConstructors["toString"]]
    finds the built-in method that the object literal inherits from
    [Object.prototype], the method is truthy, and [new] on it throws a
    [TypeError]. The kind ["constructor"] finds the function [Object], and
    [makeTreeNode] returns the object itself instead of [undefined]. Kinds
    that are missing or empty yield [undefined]. *)
Theorem makeTreeNode_toString_throws :
  ("toString" ∉ supportedKinds)
  ∧ makeTreeNode (objectOfKind (Some "toString"))
    = Throw (TypeError "constructor is not a constructor")
  ∧ ("constructor" ∉ supportedKinds)
  ∧ makeTreeNode (objectOfKind (Some "constructor"))
    = Return (Some (SameObject (objectOfKind (Some "constructor"))))
  ∧ makeTreeNode (objectOfKind None) = Return None
  ∧ makeTreeNode (objectOfKind (Some "")) = Return None.
Proof.
  split; [unfold supportedKinds; not_in_literals|].
  split; [vm_compute; reflexivity|].
  split; [unfold supportedKinds; not_in_literals|].
  repeat split; vm_compute; reflexivity.
Qed.

(** ** Properties of [qualifyToolkitKind] *)

Lemma toolkitKinds_own k :
  k ∈ toolkitKinds ↔ is_Some (fullKinds !! k).
Proof.
  split.
  - intros Hk. unfold toolkitKinds in Hk.
    repeat (apply elem_of_cons in Hk as [->|Hk]; [vm_compute; eauto|]).
    now apply elem_of_nil in Hk.
  - intros [q Hq]. unfold fullKinds in Hq.
    apply elem_of_list_to_map_2 in Hq.
    repeat (apply elem_of_cons in Hq as [[= -> _]|Hq];
            [unfold toolkitKinds; set_solver|]).
    now apply elem_of_nil in Hq.
Qed.

(** The qualified names are not keys of [fullKinds] themselves, they are not
    names of members of [Object.prototype], and neither are the keys. *)
Lemma fullKinds_values k q :
  fullKinds !! k = Some q →
  fullKinds !! q = None ∧ objectPrototype !! q = None
  ∧ objectPrototype !! k = None ∧ truthy (Some q) = true ∧ q ≠ k.
Proof.
  intros Hq. unfold fullKinds in Hq.
  apply elem_of_list_to_map_2 in Hq.
  repeat (apply elem_of_cons in Hq as [[= -> ->]|Hq];
          [repeat split; try (vm_compute; reflexivity); discriminate|]).
  now apply elem_of_nil in Hq.
Qed.

(** Unless [kind] is the name of a member of [Object.prototype],
    [qualifyToolkitKind] returns a string, and qualifying that string again
    gives the same string: a qualified name stays as it is, and so does every
    kind outside the table (the empty kind too). *)
Theorem qualifyToolkitKind_idempotent kind :
  objectPrototype !! kind = None →
  ∃ qualified,
    qualifyToolkitKind kind = KindString qualified
    ∧ qualifyToolkitKind qualified = KindString qualified
    ∧ (kind ∉ toolkitKinds → qualified = kind).
Proof.
  intros Hproto. unfold qualifyToolkitKind at 1. unfold fullKinds_get.
  destruct (fullKinds !! kind) as [q|] eqn:Hq.
  - destruct (fullKinds_values kind q Hq) as (Hq1 & Hq2 & _ & Hq3 & _).
    exists q. cbn [kindValueTruthy]. rewrite Hq3.
    split; [reflexivity|]. split.
    + unfold qualifyToolkitKind, fullKinds_get. now rewrite Hq1, Hq2.
    + intros Hk. exfalso. apply Hk. apply toolkitKinds_own. eauto.
  - rewrite Hproto. cbn [fmap option_fmap option_map].
    exists kind. split; [reflexivity|]. split; [|reflexivity].
    unfold qualifyToolkitKind, fullKinds_get. now rewrite Hq, Hproto.
Qed.

Lemma qualifyToolkitKind_idempotent_witness :
  ∃ qualified,
    qualifyToolkitKind "HelmRelease" = KindString qualified
    ∧ qualifyToolkitKind qualified = KindString qualified
    ∧ ("HelmRelease" ∉ toolkitKinds → qualified = "HelmRelease").
Proof.
  apply (qualifyToolkitKind_idempotent "HelmRelease").
  vm_compute. reflexivity.
Defined.

(** [qualifyToolkitKind] returns a string exactly when [kind] is not the
    name of a member of [Object.prototype]; for such a name it returns the
    inherited function or object. *)
Theorem qualifyToolkitKind_string_iff kind :
  (∃ s, qualifyToolkitKind kind = KindString s)
  ↔ objectPrototype !! kind = None.
Proof.
  split.
  - intros [s Hs]. unfold qualifyToolkitKind, fullKinds_get in Hs.
    destruct (fullKinds !! kind) as [q|] eqn:Hq.
    + now destruct (fullKinds_values kind q Hq) as (_ & _ & Hk & _).
    + destruct (objectPrototype !! kind) as [v|]; [|reflexivity].
      cbn in Hs. discriminate.
  - intros Hproto.
    destruct (qualifyToolkitKind_idempotent kind Hproto) as (q & Hq & _).
    eauto.
Qed.

(** Among the kinds of the node registry, [qualifyToolkitKind] changes
    exactly those whose node class is a source, a workload or the GitOps
    template; namespaces and the plain resources keep their kind. *)
Theorem qualifyToolkitKind_registry kind cls :
  nodeConstructors !! kind = Some cls →
  (qualifyToolkitKind kind ≠ KindString kind
   ↔ subclassOfSourceNode cls || subclassOfWorkloadNode cls
     || bool_decide (cls = GitOpsTemplateNode) = true).
Proof.
  intros Hcls. unfold nodeConstructors in Hcls.
  apply elem_of_list_to_map_2 in Hcls.
  repeat (apply elem_of_cons in Hcls as [[= -> ->]|Hcls];
          [vm_compute; split; [reflexivity || (intros H; now contradiction H)
                              | discriminate]|]).
  now apply elem_of_nil in Hcls.
Qed.

Lemma qualifyToolkitKind_registry_witness :
  qualifyToolkitKind "Bucket" ≠ KindString "Bucket"
  ∧ ¬ (qualifyToolkitKind "Pod" ≠ KindString "Pod").
Proof.
  split.
  - apply (qualifyToolkitKind_registry "Bucket" BucketNode); reflexivity.
  - intros Hpod.
    apply (qualifyToolkitKind_registry "Pod" AnyResourceNode) in Hpod;
      [discriminate Hpod | reflexivity].
Defined.

(** ** Further properties of [NamespaceNode.updateLabel] *)

Lemma countIf_pos p cs :
  countIf p cs ≠ 0 ↔ Exists (λ c, p c = true) cs.
Proof.
  induction cs as [|c cs IH].
  - split; [intros H; now contradiction H|intros H; inversion H].
  - rewrite countIf_cons, Exists_cons, <- IH.
    destruct (p c); cbn [Nat.add]; intuition (try discriminate; try lia).
Qed.

Lemma countIf_Permutation p (l1 l2 : list TreeNode) :
  l1 ≡ₚ l2 → countIf p l1 = countIf p l2.
Proof.
  induction 1 as [|c l1 l2 _ IH|c1 c2 l|l1 l2 l3 _ IH1 _ IH2].
  - reflexivity.
  - now rewrite !countIf_cons, IH.
  - rewrite !countIf_cons. lia.
  - now rewrite IH1.
Qed.

Lemma errorCount_pos cs : errorCount cs ≠ 0 ↔ Exists failedChild cs.
Proof.
  unfold errorCount. rewrite countIf_pos.
  split; intros H; (eapply Exists_impl; [exact H|]); intros c;
    unfold failedChild;
    destruct (tracked c), (resourceIsReady c), (resourceIsProgressing c);
    cbn [andb negb]; intuition discriminate.
Qed.

Lemma progressingNotReady_pos cs :
  progressingNotReady cs ≠ 0 ↔ Exists pendingChild cs.
Proof.
  unfold progressingNotReady. rewrite countIf_pos.
  split; intros H; (eapply Exists_impl; [exact H|]); intros c;
    unfold pendingChild;
    destruct (tracked c), (resourceIsReady c), (resourceIsProgressing c);
    cbn [andb negb]; intuition discriminate.
Qed.

Lemma all_ready_counts cs :
  Forall (λ c, tracked c = true → resourceIsReady c = true) cs
  ↔ errorCount cs = 0 ∧ progressingNotReady cs = 0.
Proof.
  unfold errorCount, progressingNotReady.
  induction cs as [|c cs IH].
  - split; [intros _; split; reflexivity|constructor].
  - rewrite Forall_cons, IH, !countIf_cons.
    destruct (tracked c), (resourceIsReady c), (resourceIsProgressing c);
      cbn [andb negb Nat.add]; intuition (try discriminate; try lia).
Qed.

(** With icons enabled, the icon of a namespace node tells the state of its
    sources and workloads: [Warning] exactly when one of them is neither
    ready nor progressing, [Success] exactly when each of them is ready, and
    [Progressing] exactly when none has failed and one is still progressing.
    Children of other classes have no say, and a node without children gets
    [Success]. *)
Theorem updateLabel_icon_by_status (node : NamespaceNode) :
  let cs := children node in
  let shown := icon (updateLabel true node) in
  (shown = Some Warning ↔ Exists failedChild cs)
  ∧ (shown = Some Success
     ↔ Forall (λ c, tracked c = true → resourceIsReady c = true) cs)
  ∧ (shown = Some Progressing
     ↔ ¬ Exists failedChild cs ∧ Exists pendingChild cs)
  ∧ (cs = [] → shown = Some Success).
Proof.
  cbv zeta. cbn [updateLabel icon].
  rewrite all_ready_counts, <- errorCount_pos, <- progressingNotReady_pos.
  unfold aggregateIcon, validLength, totalLength.
  rewrite readyLength_count, loadingLength_count.
  pose proof (count_partition (children node)) as Hpart.
  split; [|split; [|split]].
  - repeat case_bool_decide; split; intros Hgoal; try discriminate Hgoal;
      try reflexivity; lia.
  - repeat case_bool_decide; split; intros Hgoal; try discriminate Hgoal;
      try reflexivity; lia.
  - repeat case_bool_decide; split; intros Hgoal; try discriminate Hgoal;
      try reflexivity; lia.
  - intros Hnil. rewrite Hnil. reflexivity.
Qed.

Lemma countChildren_Permutation (l1 l2 : list TreeNode) :
  l1 ≡ₚ l2 →
  readyLength l1 = readyLength l2 ∧ loadingLength l1 = loadingLength l2
  ∧ totalLength l1 = totalLength l2.
Proof.
  intros Hperm. rewrite !readyLength_count, !loadingLength_count.
  unfold readyTracked, untrackedCount, progressingNotReady, totalLength.
  rewrite !(countIf_Permutation _ l1 l2 Hperm).
  repeat split. now apply Permutation_length.
Qed.

(** The order of the children does not matter: two namespace nodes with the
    same name and collapsible state whose children are the same up to their
    order get the same label and the same icon. *)
Theorem updateLabel_order_irrelevant (withIcons : bool)
    (node1 node2 : NamespaceNode) :
  children node1 ≡ₚ children node2 →
  resourceName node1 = resourceName node2 →
  collapsibleState node1 = collapsibleState node2 →
  label (updateLabel withIcons node1) = label (updateLabel withIcons node2)
  ∧ icon (updateLabel withIcons node1) = icon (updateLabel withIcons node2).
Proof.
  intros Hperm Hname Hstate.
  destruct (countChildren_Permutation _ _ Hperm) as (Hr & Hl & Ht).
  cbn [updateLabel label icon].
  unfold aggregateLabel, aggregateIcon, validLength.
  now rewrite Hname, Hstate, Hr, Hl, Ht.
Qed.

Lemma updateLabel_order_irrelevant_witness :
  label (updateLabel true
           (fluxSystem Collapsed
              [gitRepository true false; kustomization false false; configMap]))
  = label (updateLabel true
             (fluxSystem Collapsed
                [configMap; kustomization false false; gitRepository true false])).
Proof.
  refine (proj1 (updateLabel_order_irrelevant true
                   (fluxSystem Collapsed
                      [gitRepository true false; kustomization false false;
                       configMap])
                   (fluxSystem Collapsed
                      [configMap; kustomization false false;
                       gitRepository true false]) _ eq_refl eq_refl)).
  cbn [fluxSystem children].
  etransitivity; [apply Permutation_swap|].
  etransitivity; [apply Permutation_skip, Permutation_swap|].
  apply Permutation_swap.
Defined.

(** [updateLabel] computes label and icon from the name, the collapsible
    state and the children alone: what label and icon the node had before
    does not matter, so running it a second time changes nothing, and
    running it without icons after running it with icons only removes the
    icon. *)
Theorem updateLabel_idempotent (withIcons1 withIcons2 : bool)
    (node : NamespaceNode) (oldLabel : string) (oldIcon : option TreeNodeIcon) :
  updateLabel withIcons2 (updateLabel withIcons1 node)
  = updateLabel withIcons2 node
  ∧ updateLabel withIcons2
      {| resourceName := resourceName node; children := children node;
         collapsibleState := collapsibleState node;
         label := oldLabel; icon := oldIcon |}
    = updateLabel withIcons2 node
  ∧ label (updateLabel false node) = label (updateLabel true node)
  ∧ icon (updateLabel false (updateLabel true node)) = None.
Proof. repeat split. Qed.

(** ** Further properties of [syncKubeConfig] *)

Local Open Scope Z_scope.

(** kubectl either fails or succeeds with some result. *)
Lemma cli_cases env :
  cliFailed (kubectlConfigView env) ∨ ∃ result, cliSucceeded env result.
Proof.
  unfold cliFailed, cliSucceeded.
  destruct (kubectlConfigView env) as [result|]; [|left; exact I].
  destruct (decide (code result = 0)) as [H0|H0]; [right|left; exact H0].
  exists result. split; [reflexivity|exact H0].
Qed.


(** A changed text means a different kubeconfig. *)
Lemma kcTextChanged_neq kc1 kc2 : kcTextChanged kc1 kc2 = true → kc1 ≠ kc2.
Proof. intros H ->. now rewrite kcTextChanged_refl in H. Qed.


(** A cycle only ever clears context keys: a key that is set afterwards was
    set before. When a cycle does change a key, it also reloads the cluster
    tree view and the resource kinds. *)
Theorem syncKubeConfig_flags_only_cleared env force w :
  let w' := exec (syncKubeConfig env force) w in
  (∀ key, vscodeContext w' key = true → vscodeContext w key = true)
  ∧ ((∃ key, vscodeContext w' key ≠ vscodeContext w key) →
     reloads (calls (syncKubeConfig env force) w)
     = [ReloadClustersTreeView; LoadApiResources]).
Proof.
  cbv zeta. unfold calls.
  destruct (cli_cases env) as [Hfail|[result Hok]].
  - rewrite (syncKubeConfig_failure_world env force w Hfail).
    cbn [trace vscodeContext]. split; [tauto|]. intros [key Hkey]. tauto.
  - destruct (kcTextChanged (kubeConfig w) (loadFromString (stdout result)))
      eqn:Htext.
    + rewrite (syncKubeConfig_changed_world env force w result Hok Htext).
      cbv zeta. cbn [trace vscodeContext]. rewrite drop_app_length.
      destruct (kcCurrentContextChanged _ _).
      * split; [|reflexivity]. intros key. unfold clearFlags.
        repeat case_bool_decide; (discriminate || tauto).
      * split; [tauto|]. intros [key Hkey]. tauto.
    + rewrite (syncKubeConfig_unchanged_world env force w result Hok Htext).
      cbn [trace vscodeContext]. split; [tauto|]. intros [key Hkey]. tauto.
Qed.

(** A cycle commits all or nothing: afterwards the committed kubeconfig is
    the one from before or the snapshot read from kubectl's output. The
    cluster tree view is reloaded only by cycles that commit a kubeconfig
    different from the one before. *)
Theorem syncKubeConfig_commit env force w :
  let w' := exec (syncKubeConfig env force) w in
  (kubeConfig w' = kubeConfig w
   ∨ ∃ result, cliSucceeded env result
               ∧ kubeConfig w' = loadFromString (stdout result))
  ∧ (ReloadClustersTreeView ∈ calls (syncKubeConfig env force) w →
     kubeConfig w' ≠ kubeConfig w).
Proof.
  cbv zeta. unfold calls.
  destruct (cli_cases env) as [Hfail|[result Hok]].
  - rewrite (syncKubeConfig_failure_world env force w Hfail).
    cbn [trace kubeConfig]. rewrite drop_app_length.
    split; [left; reflexivity|].
    rewrite list_elem_of_In. simpl. intuition discriminate.
  - destruct (kcTextChanged (kubeConfig w) (loadFromString (stdout result)))
      eqn:Htext.
    + rewrite (syncKubeConfig_changed_world env force w result Hok Htext).
      cbv zeta. cbn [trace kubeConfig].
      split; [right; eauto|]. intros _ Heq.
      apply kcTextChanged_neq in Htext. congruence.
    + rewrite (syncKubeConfig_unchanged_world env force w result Hok Htext).
      cbn [trace kubeConfig]. rewrite drop_app_length.
      split; [left; reflexivity|].
      rewrite list_elem_of_In. destruct force; simpl; intuition discriminate.
Qed.

(** The state [NoContextSelected] is never wrong: a cycle that ends in it has
    committed a kubeconfig whose current context is not among its contexts.
    A cycle that ends in [Loaded] has either committed nothing or committed a
    kubeconfig whose current context is among its contexts. *)
Theorem syncKubeConfig_state_sound env force w :
  let w' := exec (syncKubeConfig env force) w in
  (kubeConfigState w' = NoContextSelected →
   currentContextPresent (kubeConfig w') = false
   ∧ kubeConfig w' ≠ kubeConfig w)
  ∧ (kubeConfigState w' = Loaded →
     kubeConfig w' = kubeConfig w
     ∨ currentContextPresent (kubeConfig w') = true).
Proof.
  cbv zeta.
  destruct (cli_cases env) as [Hfail|[result Hok]].
  - rewrite (syncKubeConfig_failure_world env force w Hfail).
    cbn [kubeConfigState kubeConfig]. split; [discriminate|]. now left.
  - destruct (kcTextChanged (kubeConfig w) (loadFromString (stdout result)))
      eqn:Htext.
    + rewrite (syncKubeConfig_changed_world env force w result Hok Htext).
      cbv zeta. cbn [kubeConfigState kubeConfig].
      apply kcTextChanged_neq in Htext.
      destruct (currentContextPresent _); split; try discriminate.
      * intros _. now right.
      * intros _. split; [reflexivity|congruence].
    + rewrite (syncKubeConfig_unchanged_world env force w result Hok Htext).
      cbn [kubeConfigState kubeConfig]. split; [discriminate|]. now left.
Qed.

(** When kubectl succeeds and [forceReloadResourceKinds] is set, the resource
    kinds are reloaded exactly once, whether the text changed or not. *)
Theorem syncKubeConfig_forced env w result :
  cliSucceeded env result →
  List.filter (λ e, bool_decide (e = LoadApiResources))
    (calls (syncKubeConfig env true) w)
  = [LoadApiResources].
Proof.
  intros Hok. unfold calls.
  destruct (kcTextChanged (kubeConfig w) (loadFromString (stdout result)))
    eqn:Htext.
  - rewrite (syncKubeConfig_changed_world env true w result Hok Htext).
    cbv zeta. cbn [trace]. rewrite drop_app_length.
    destruct (kcCurrentContextChanged _ _), (kcContextsListChanged _ _);
      reflexivity.
  - rewrite (syncKubeConfig_unchanged_world env true w result Hok Htext).
    cbn [trace]. rewrite drop_app_length. reflexivity.
Qed.

Lemma syncKubeConfig_forced_witness :
  cliSucceeded (envOf 0 docB_currentA)
    {| code := 0; stdout := docB_currentA; stderr := "" |}
  ∧ List.filter (λ e, bool_decide (e = LoadApiResources))
      (calls (syncKubeConfig (envOf 0 docB_currentA) true) initialWorld)
    = [LoadApiResources].
Proof.
  assert (Hok : cliSucceeded (envOf 0 docB_currentA)
                  {| code := 0; stdout := docB_currentA; stderr := "" |})
    by (split; reflexivity).
  exact (conj Hok (syncKubeConfig_forced (envOf 0 docB_currentA) initialWorld
                     _ Hok)).
Defined.

(** ** Properties of treeViews.ts *)

Local Open Scope nat_scope.

Lemma createAllTreeViews_run ctx s :
  createAllTreeViews ctx s = (Return tt, viewsCreated ctx s).
Proof.
  cbv beta iota zeta delta -[app Nat.add].
  rewrite <- !app_assoc. reflexivity.
Qed.

Lemma refreshAllTreeViews_run s cluster source deployment :
  clusterTreeViewProvider s = Some cluster →
  sourceTreeViewProvider s = Some source →
  deploymentTreeViewProvider s = Some deployment →
  fst (refreshAllTreeViews s) = Return tt
  ∧ viewCalls (snd (refreshAllTreeViews s))
    = viewCalls s ++ [ProviderRefresh cluster; ProviderRefresh source;
                      ProviderRefresh deployment].
Proof.
  intros Hc Hs Hd.
  cbv beta iota zeta delta -[app clusterTreeViewProvider
    sourceTreeViewProvider deploymentTreeViewProvider viewCalls].
  rewrite Hc. cbn [sourceTreeViewProvider]. rewrite Hs.
  cbn [deploymentTreeViewProvider]. rewrite Hd.
  cbn [fst snd viewCalls]. rewrite <- !app_assoc. split; reflexivity.
Qed.

Lemma createAllTreeViews_calls ctx s :
  viewCallsOf (createAllTreeViews ctx) s = createCalls ctx (objectsMade s).
Proof.
  unfold viewCallsOf. rewrite createAllTreeViews_run. cbn [snd].
  unfold viewsCreated. cbn [viewCalls]. apply drop_app_length.
Qed.

Lemma refreshAllTreeViews_created_calls ctx s :
  viewCallsOf refreshAllTreeViews (viewsCreated ctx s)
  = [ProviderRefresh
       (providerMade ClusterTreeViewDataProvider (objectsMade s) 0);
     ProviderRefresh
       (providerMade SourceTreeViewDataProvider (objectsMade s) 1);
     ProviderRefresh
       (providerMade DeploymentTreeViewDataProvider (objectsMade s) 2)].
Proof.
  unfold viewCallsOf.
  destruct (refreshAllTreeViews_run (viewsCreated ctx s) _ _ _
              eq_refl eq_refl eq_refl) as [_ ->].
  apply drop_app_length.
Qed.

(** After [createAllTreeViews], from whatever state of the module,
    [refreshAllTreeViews] returns normally and refreshes three providers, in
    this order: the ones with which the cluster, the source and the
    deployment tree view were just created. The four providers are four
    different objects, so the provider of the documentation view is not
    refreshed. *)
Theorem refreshAllTreeViews_after_create (ctx : ExtensionContext)
    (s : ViewsModule) :
  let s1 := snd (createAllTreeViews ctx s) in
  let created := viewCallsOf (createAllTreeViews ctx) s in
  fst (createAllTreeViews ctx s) = Return tt
  ∧ fst (refreshAllTreeViews s1) = Return tt
  ∧ ∃ cluster source deployment documentation,
      registeredProvider created ClusterView = Some cluster
      ∧ registeredProvider created SourceView = Some source
      ∧ registeredProvider created DeploymentView = Some deployment
      ∧ registeredProvider created DocumentationView = Some documentation
      ∧ viewCallsOf refreshAllTreeViews s1
        = [ProviderRefresh cluster; ProviderRefresh source;
           ProviderRefresh deployment]
      ∧ NoDup [cluster; source; deployment; documentation].
Proof.
  cbv zeta. rewrite createAllTreeViews_calls, createAllTreeViews_run.
  cbn [fst snd]. rewrite refreshAllTreeViews_created_calls.
  destruct (refreshAllTreeViews_run (viewsCreated ctx s) _ _ _
              eq_refl eq_refl eq_refl) as [Hreturn _].
  split; [reflexivity|]. split; [exact Hreturn|].
  do 4 eexists. do 5 (split; [reflexivity|]).
  repeat (apply NoDup_cons; split;
          [rewrite list_elem_of_In; cbn [In]; unfold providerMade;
           intuition discriminate|]).
  apply NoDup_nil. exact I.
Qed.

(** [refreshAllTreeViews] returns normally exactly when the three provider
    variables are set. While the cluster provider is [undefined], as it is
    before [createAllTreeViews], it throws a [TypeError] and refreshes
    nothing. *)
Theorem refreshAllTreeViews_needs_create (s : ViewsModule) :
  (fst (refreshAllTreeViews s) = Return tt
   ↔ is_Some (clusterTreeViewProvider s)
     ∧ is_Some (sourceTreeViewProvider s)
     ∧ is_Some (deploymentTreeViewProvider s))
  ∧ (clusterTreeViewProvider s = None →
     ∃ e, refreshAllTreeViews s = (Throw e, s))
  ∧ (∃ e, refreshAllTreeViews initialViewsModule
          = (Throw e, initialViewsModule)).
Proof.
  split; [|split; [|eexists; reflexivity]].
  - destruct (clusterTreeViewProvider s) as [c|] eqn:Hc.
    + destruct (sourceTreeViewProvider s) as [so|] eqn:Hs.
      * destruct (deploymentTreeViewProvider s) as [d|] eqn:Hd.
        -- destruct (refreshAllTreeViews_run s c so d Hc Hs Hd) as [-> _].
           split; [eauto|reflexivity].
        -- cbv beta iota zeta delta -[app clusterTreeViewProvider
             sourceTreeViewProvider deploymentTreeViewProvider viewCalls].
           rewrite Hc. cbn [sourceTreeViewProvider]. rewrite Hs.
           cbn [deploymentTreeViewProvider]. rewrite Hd.
           split; [discriminate|]. intros (_ & _ & [? H]). discriminate H.
      * cbv beta iota zeta delta -[app clusterTreeViewProvider
          sourceTreeViewProvider deploymentTreeViewProvider viewCalls].
        rewrite Hc. cbn [sourceTreeViewProvider]. rewrite Hs.
        split; [discriminate|]. intros (_ & [? H] & _). discriminate H.
    + cbv beta iota zeta delta -[app clusterTreeViewProvider
        sourceTreeViewProvider deploymentTreeViewProvider viewCalls].
      rewrite Hc.
      split; [discriminate|]. intros ([? H] & _). discriminate H.
  - intros Hnone. eexists.
    cbv beta iota zeta delta -[app clusterTreeViewProvider].
    rewrite Hnone. reflexivity.
Qed.

(** A second [createAllTreeViews] replaces the providers: the provider with
    which a tree view was created by the first call is not refreshed by
    [refreshAllTreeViews] any more. *)
Theorem createAllTreeViews_twice (ctx1 ctx2 : ExtensionContext)
    (s : ViewsModule) (v : Views) (p : Provider) :
  registeredProvider (viewCallsOf (createAllTreeViews ctx1) s) v = Some p →
  let s1 := snd (createAllTreeViews ctx1 s) in
  let s2 := snd (createAllTreeViews ctx2 s1) in
  ProviderRefresh p ∉ viewCallsOf refreshAllTreeViews s2.
Proof.
  cbv zeta. rewrite createAllTreeViews_calls, !createAllTreeViews_run.
  cbn [snd]. rewrite refreshAllTreeViews_created_calls.
  intros Hp. rewrite list_elem_of_In. cbn [In].
  unfold providerMade, viewsCreated. cbn [objectsMade].
  destruct v; cbv -[Nat.add objectsMade] in Hp; injection Hp as <-;
    intros [H|[H|[H|[]]]]; injection H; try discriminate; lia.
Qed.

Lemma createAllTreeViews_twice_witness :
  ProviderRefresh
    {| providerClass := ClusterTreeViewDataProvider; providerObject := 0 |}
  ∉ viewCallsOf refreshAllTreeViews
      (snd (createAllTreeViews {| extensionPath := "/ext" |}
              (snd (createAllTreeViews {| extensionPath := "/ext" |}
                      initialViewsModule)))).
Proof.
  apply (createAllTreeViews_twice {| extensionPath := "/ext" |}
           {| extensionPath := "/ext" |} initialViewsModule ClusterView).
  reflexivity.
Defined.

(** ** Properties of [createKustomizationForPath] *)

(** The loop over the workspace folders yields the relative path from the
    first folder that passes the test, and [''] when no folder passes. *)
Lemma relativeKustomizationPath_first env folders target :
  (relativeKustomizationPath env folders target = ""
   ∧ Forall (λ folder,
       insideFolder env (path_relative env (fsPath (uri folder)) target)
       = false) folders)
  ∨ (∃ before folder after,
       folders = before ++ folder :: after
       ∧ Forall (λ folder,
           insideFolder env (path_relative env (fsPath (uri folder)) target)
           = false) before
       ∧ insideFolder env (path_relative env (fsPath (uri folder)) target)
         = true
       ∧ relativeKustomizationPath env folders target
         = path_relative env (fsPath (uri folder)) target).
Proof.
  induction folders as [|folder folders IH]; [left; split; [reflexivity|constructor]|].
  cbn [relativeKustomizationPath].
  destruct (insideFolder env (path_relative env (fsPath (uri folder)) target))
    eqn:Hin.
  - right. exists [], folder, folders. repeat split; [constructor|exact Hin].
  - destruct IH as [[Hempty Hall]|(before & f & after & -> & Hbefore & Hf & Hr)].
    + left. split; [exact Hempty|]. constructor; assumption.
    + right. exists (folder :: before), f, after.
      repeat split; [constructor; assumption|exact Hf|exact Hr].
Qed.

(** The path that is handed to the webview never leaves the workspace: it is
    [''] or a non-empty relative path from one of the workspace folders to
    the chosen folder that neither starts with [..] nor is absolute. The
    webview is always opened with [createWorkload] set. *)
Theorem createKustomizationForPath_path env fileExplorerUri
    selectSource sourceName kustomizationPath createWorkload gitInfo :
  OpenConfigureGitOpsWebview selectSource sourceName kustomizationPath
    createWorkload gitInfo
  ∈ kustomizationCalls env fileExplorerUri →
  createWorkload = true
  ∧ (kustomizationPath = ""
     ∨ (kustomizationPath ≠ ""
        ∧ String.prefix ".." kustomizationPath = false
        ∧ path_isAbsolute env kustomizationPath = false
        ∧ ∃ folder target,
            chosenFolder env fileExplorerUri = Some target
            ∧ folder ∈ default [] (workspaceFolders env)
            ∧ kustomizationPath
              = path_relative env (fsPath (uri folder)) target)).
Proof.
  assert (Hsafe : ∀ target,
    let r := relativeKustomizationPath env (default [] (workspaceFolders env))
               target in
    r = ""
    ∨ (r ≠ "" ∧ String.prefix ".." r = false ∧ path_isAbsolute env r = false
       ∧ ∃ folder, folder ∈ default [] (workspaceFolders env)
                   ∧ r = path_relative env (fsPath (uri folder)) target)).
  { intros target. cbv zeta.
    destruct (relativeKustomizationPath_first env
                (default [] (workspaceFolders env)) target)
      as [[Hempty _]|(before & f & after & Hfolders & _ & Hf & Hr)];
      [now left|right].
    rewrite Hr. unfold insideFolder in Hf.
    apply andb_prop in Hf as [Hf Habs]. apply andb_prop in Hf as [Hne Hdots].
    apply negb_true_iff in Habs, Hdots.
    repeat split; try assumption.
    - intros Heq. rewrite Heq in Hne. discriminate.
    - exists f. split; [|reflexivity]. rewrite Hfolders.
      apply elem_of_app. right. apply elem_of_cons. now left. }
  unfold kustomizationCalls, createKustomizationForPath, chooseFolder,
    defaultUri, chosenFolder.
  cbv [pbind pret pthrow kustomizationEmit]. cbn [app].
  destruct (currentClusterInfoFailed env);
    [cbn [snd]; rewrite list_elem_of_In; simpl; intuition discriminate|].
  destruct fileExplorerUri as [explorerUri|].
  - cbn [snd app]. rewrite list_elem_of_In. cbn [In].
    intros [H|[H|[H|[H|[]]]]]; try discriminate H.
    injection H as _ _ <- <- _. split; [reflexivity|].
    destruct (Hsafe (fsPath explorerUri)) as [He|(Hne & Hd & Ha & f & Hf & Hr)];
      [now left|right]. eauto 10.
  - destruct (workspaceFolders env) as [[|folder0 folders]|] eqn:Hws;
      cbn [snd app];
      try (rewrite list_elem_of_In; simpl; intuition discriminate);
      (destruct (showOpenDialogAnswer env) as [[|picked rest]|];
       cbn [snd app]; rewrite list_elem_of_In; cbn [In];
       try (intuition discriminate);
       intros [H|[H|[H|[H|[H|[]]]]]]; try discriminate H;
       injection H as _ _ <- <- _; (split; [reflexivity|]);
       destruct (Hsafe (fsPath picked))
         as [He|(Hne & Hd & Ha & f & Hf & Hr)];
       [now left|right; eauto 10]).
Qed.

Lemma createKustomizationForPath_path_witness :
  OpenConfigureGitOpsWebview true "flux-system/app" "clusters/dev" true
    (Some {| gitInfo_url := "ssh://git@host/app" |})
  ∈ kustomizationCalls (workspaceEnv false None)
      (Some {| fsPath := "/work/app/clusters/dev" |})
  ∧ String.prefix ".." "clusters/dev" = false.
Proof.
  assert (Hcall :
    OpenConfigureGitOpsWebview true "flux-system/app" "clusters/dev" true
      (Some {| gitInfo_url := "ssh://git@host/app" |})
    ∈ kustomizationCalls (workspaceEnv false None)
        (Some {| fsPath := "/work/app/clusters/dev" |})).
  { apply list_elem_of_In. do 3 right. left. reflexivity. }
  destruct (createKustomizationForPath_path _ _ _ _ _ _ _ Hcall)
    as [_ [Hempty|(_ & Hdots & _)]]; [discriminate Hempty|].
  exact (conj Hcall Hdots).
Defined.

(** Every way through [createKustomizationForPath], in terms of the
    collaborators' answers. *)
Lemma createKustomizationForPath_cases env fileExplorerUri :
  let result := createKustomizationForPath env fileExplorerUri [] in
  (currentClusterInfoFailed env = true
   ∧ result = (Return tt, [GetCurrentClusterInfo]))
  ∨ (currentClusterInfoFailed env = false
     ∧ fileExplorerUri = None ∧ workspaceFolders env = Some []
     ∧ ∃ e, result = (Throw e, [GetCurrentClusterInfo]))
  ∨ (currentClusterInfoFailed env = false
     ∧ fileExplorerUri = None ∧ workspaceFolders env ≠ Some []
     ∧ showOpenDialogAnswer env = None
     ∧ ∃ dialogUri,
         result = (Return tt, [GetCurrentClusterInfo; ShowOpenDialog dialogUri]))
  ∨ (currentClusterInfoFailed env = false
     ∧ fileExplorerUri = None ∧ workspaceFolders env ≠ Some []
     ∧ showOpenDialogAnswer env = Some []
     ∧ ∃ e dialogUri,
         result = (Throw e, [GetCurrentClusterInfo; ShowOpenDialog dialogUri]))
  ∨ (currentClusterInfoFailed env = false
     ∧ ∃ target dialogs selectSource sourceName path gitInfo,
         chosenFolder env fileExplorerUri = Some target
         ∧ (fileExplorerUri = None → workspaceFolders env ≠ Some [])
         ∧ dialogs = match fileExplorerUri with
                     | Some _ => []
                     | None =>
                         [ShowOpenDialog
                            (uri <$> (workspaceFolders env ≫= head))]
                     end
         ∧ result
           = (Return tt,
              GetCurrentClusterInfo :: dialogs ++
              [GetFolderGitInfo target; GetGitRepositoryforGitInfo gitInfo;
               OpenConfigureGitOpsWebview selectSource sourceName path true
                 gitInfo])).
Proof.
  cbv zeta.
  unfold createKustomizationForPath, chooseFolder, defaultUri, chosenFolder.
  cbv [pbind pret pthrow kustomizationEmit]. cbn [app].
  destruct (currentClusterInfoFailed env); [left; split; reflexivity|right].
  destruct fileExplorerUri as [explorerUri|].
  - do 3 right. split; [reflexivity|]. do 6 eexists.
    split; [reflexivity|]. split; [discriminate|]. split; reflexivity.
  - destruct (workspaceFolders env) as [[|folder0 folders]|] eqn:Hws.
    + left. repeat split. eexists. reflexivity.
    + right.
      destruct (showOpenDialogAnswer env) as [[|picked rest]|] eqn:Hpick.
      * right. left. repeat split; try discriminate. do 2 eexists. reflexivity.
      * do 2 right. split; [reflexivity|]. do 6 eexists.
        split; [reflexivity|]. split; [discriminate|]. split; reflexivity.
      * left. repeat split; try discriminate. eexists. reflexivity.
    + right.
      destruct (showOpenDialogAnswer env) as [[|picked rest]|] eqn:Hpick.
      * right. left. repeat split; try discriminate. do 2 eexists. reflexivity.
      * do 2 right. split; [reflexivity|]. do 6 eexists.
        split; [reflexivity|]. split; [discriminate|]. split; reflexivity.
      * left. repeat split; try discriminate. eexists. reflexivity.
Qed.

(** [createKustomizationForPath] opens the webview at most once, and only
    when the cluster information is available and a folder is known (from
    the file explorer, or picked in the dialog). It shows the folder dialog
    at most once, and only when it was called without a folder. When the
    cluster information is not available, it returns after that one call. *)
Theorem createKustomizationForPath_webview env fileExplorerUri :
  let evs := kustomizationCalls env fileExplorerUri in
  length (webviewsOpened evs) ≤ 1
  ∧ length (dialogsShown evs) ≤ 1
  ∧ (webviewsOpened evs ≠ [] →
     currentClusterInfoFailed env = false
     ∧ is_Some (chosenFolder env fileExplorerUri))
  ∧ (dialogsShown evs ≠ [] →
     fileExplorerUri = None ∧ currentClusterInfoFailed env = false)
  ∧ (currentClusterInfoFailed env = true → evs = [GetCurrentClusterInfo]).
Proof.
  cbv zeta. unfold kustomizationCalls.
  destruct (createKustomizationForPath_cases env fileExplorerUri)
    as [(Hf & ->)|[(Hf & Hu & Hws & e & ->)|[(Hf & Hu & Hws & Hd & du & ->)
       |[(Hf & Hu & Hws & Hd & e & du & ->)
        |(Hf & target & dialogs & ss & sn & path & gi & Hc & Hw & Hdialogs
          & ->)]]]];
    cbn [snd]; rewrite ?Hf.
  - cbn. repeat split; try lia; congruence.
  - cbn. repeat split; try lia; congruence.
  - cbn. repeat split; try lia; congruence.
  - cbn. repeat split; try lia; congruence.
  - destruct fileExplorerUri; subst dialogs;
      cbn [webviewsOpened dialogsShown List.filter length app];
      repeat split; try lia; try congruence; rewrite Hc; eauto.
Qed.

(** [createKustomizationForPath] throws exactly when it was called without a
    folder, the cluster information is available, and the list of workspace
    folders is empty or the dialog returned an empty selection. Called with
    a folder from the file explorer it never throws. *)
Theorem createKustomizationForPath_throws_iff env fileExplorerUri :
  (∃ e, fst (createKustomizationForPath env fileExplorerUri []) = Throw e)
  ↔ fileExplorerUri = None
    ∧ currentClusterInfoFailed env = false
    ∧ (workspaceFolders env = Some [] ∨ showOpenDialogAnswer env = Some []).
Proof.
  destruct (createKustomizationForPath_cases env fileExplorerUri)
    as [(Hf & ->)|[(Hf & Hu & Hws & e & ->)|[(Hf & Hu & Hws & Hd & du & ->)
       |[(Hf & Hu & Hws & Hd & e & du & ->)
        |(Hf & target & dialogs & ss & sn & path & gi & Hc & Hw & Hdialogs
          & ->)]]]];
    cbn [fst]; rewrite ?Hf.
  - split; [intros [e He]; discriminate He|intros (_ & H & _); discriminate H].
  - split; [intros _; auto|eauto].
  - split; [intros [e He]; discriminate He|].
    intros (_ & _ & [H|H]); [contradiction|]. rewrite Hd in H. discriminate H.
  - split; [intros _; auto|eauto].
  - split; [intros [e He]; discriminate He|].
    intros (Hu & _ & [H|H]); exfalso; [exact (Hw Hu H)|].
    unfold chosenFolder in Hc. rewrite Hu, H in Hc. discriminate Hc.
Qed.
